(** * aslprep: the CBF workflow constructors of [aslprep/workflows/bold/cbf.py]

    A shallow embedding of the four workflow constructors
    ([init_cbf_compt_wf], [init_cbfqc_compt_wf], [init_cbfplot_wf],
    [init_cbfroiquant_wf]) and of [pcaslorasl], followed by the properties of
    the graphs they build.

    Python values are a small inductive type, exceptions are values of [exn],
    and a computation that may raise lives in the [result] monad.  A workflow
    is the list of its nodes and the list of its port-to-port edges, built by
    [connect] from the same connection tuples the source passes to
    [workflow.connect].  Scheduling hints of [pe.Node] ([mem_gb],
    [run_without_submitting]) and the report text [__desc__] do not take part
    in the graph and are left out.

    The checks made inside the libraries - the traits of the processing
    interfaces, their port names, the syntax of a workflow name - are not
    part of this module and are not modelled: a constructor may fail there
    where the model goes on.  The properties of a graph are therefore stated
    for the workflows a constructor returns, and failures as failures. *)

From Stdlib Require Import Floats Ascii String.
From stdpp Require Import base option list relations strings pretty gmap.

Set Warnings "-inexact-float,-register-all".
Set Default Proof Using "Type".

Open Scope string_scope.
Open Scope Z_scope.
Open Scope list_scope.

(** ** Python values and exceptions *)

Inductive pyval : Type :=
| VNone
| VBool (b : bool)
| VInt (z : Z)
| VFloat (f : float)
| VStr (s : string)
| VList (l : list pyval)
| VDict (d : gmap string pyval).

#[global] Instance pyval_inhabited : Inhabited pyval := populate VNone.

Inductive exn : Type :=
| KeyError (key : string)
| IndexError
| TypeError
| UnboundLocalError (var : string)
| AlreadyConnected (node port : string)
| PortNotFound (node port : string)
| NotModelled (node : string)
| RecursionLimit
| ExternalError (cls : string).

(** The name of the Python class of an exception. *)
Definition exn_class (e : exn) : string :=
  match e with
  | KeyError _ => "KeyError"
  | IndexError => "IndexError"
  | TypeError => "TypeError"
  | UnboundLocalError _ => "UnboundLocalError"
  | AlreadyConnected _ _ => "Exception"
  | PortNotFound _ _ => "Exception"
  | NotModelled _ => "NotImplementedError"
  | RecursionLimit => "RecursionError"
  | ExternalError cls => cls
  end.

Inductive result (A : Type) : Type :=
| Ok (a : A)
| Err (e : exn).
Arguments Ok {A} a.
Arguments Err {A} e.

#[global] Instance result_ret : MRet result := fun A a => Ok a.
#[global] Instance result_bind : MBind result := fun A B f r =>
  match r with
  | Ok a => f a
  | Err e => Err e
  end.

Definition raises {A} (r : result A) : Prop := exists e, r = Err e.

(** ** Indexing, membership, paths *)

(** [l[i]] for a Python sequence: a negative index counts from the end, an
    index out of range raises [IndexError]. *)
Definition py_index {A} (l : list A) (i : Z) : result A :=
  let n := Z.of_nat (length l) in
  let j := if i <? 0 then i + n else i in
  if (j <? 0) || (n <=? j) then Err IndexError
  else match l !! Z.to_nat j with
       | Some x => Ok x
       | None => Err IndexError
       end.

Definition getitem (v : pyval) (i : Z) : result pyval :=
  match v with
  | VList l => py_index l i
  | VStr s =>
      c ← py_index (String.list_ascii_of_string s) i;
      Ok (VStr (String c EmptyString))
  | VDict _ => Err (KeyError (pretty i))
  | _ => Err TypeError
  end.

(** [d[key]] for a dict. *)
Definition dict_getitem (d : gmap string pyval) (key : string) : result pyval :=
  match d !! key with
  | Some v => Ok v
  | None => Err (KeyError key)
  end.

(** [needle in hay] for two strings. *)
Fixpoint str_contains (needle hay : string) : bool :=
  String.prefix needle hay ||
  match hay with
  | EmptyString => false
  | String _ rest => str_contains needle rest
  end.

(** [needle in v]: substring test on a string, membership on a list, key
    membership on a dict, and a [TypeError] on a value that is not a
    container. *)
Definition py_in (needle : string) (v : pyval) : result bool :=
  match v with
  | VStr s => Ok (str_contains needle s)
  | VList l =>
      Ok (existsb (fun x => match x with
                            | VStr t => String.eqb needle t
                            | _ => false
                            end) l)
  | VDict d => Ok (bool_decide (is_Some (d !! needle)))
  | _ => Err TypeError
  end.

Definition slash : ascii := "/"%char.

Fixpoint drop_while {A} (p : A -> bool) (l : list A) : list A :=
  match l with
  | [] => []
  | x :: l' => if p x then drop_while p l' else l
  end.

(** [os.path.dirname] (posixpath): everything up to the last slash, with the
    trailing slashes removed unless the head consists of slashes only. *)
Definition dirname (p : string) : string :=
  let is_slash c := bool_decide (c = slash) in
  let rhead := drop_while (fun c => negb (is_slash c)) (rev (String.list_ascii_of_string p)) in
  let rhead' := if forallb is_slash rhead then rhead else drop_while is_slash rhead in
  String.string_of_list_ascii (rev rhead').

(** ** [pcaslorasl] *)

Definition pcaslorasl (metadata : gmap string pyval) : result bool :=
  lt ← dict_getitem metadata "LabelingType";
  c ← py_in "CASL" lt;
  pcasl ← (if c : bool then Ok (Some true)
           else
             lt' ← dict_getitem metadata "LabelingType";
             p ← py_in "PASL" lt';
             if p : bool then Ok (Some false) else Ok None);
  match pcasl with
  | Some b => Ok b
  | None => Err (UnboundLocalError "pcasl")
  end.


(** ** Nodes, interfaces and workflows *)

Definition kwargs : Type := list (string * pyval).

(** The interfaces the module instantiates, each with the keyword arguments
    it is constructed with. *)
Inductive Interface : Type :=
| niu_IdentityInterface (fields : list string)
| niu_Merge (numinputs : nat)
| ApplyTransforms (kw : kwargs)
| Resample (kw : kwargs)
| extractCBF (kw : kwargs)
| computeCBF (kw : kwargs)
| scorescrubCBF (kw : kwargs)
| BASILCBF (kw : kwargs)
| refinemask (kw : kwargs)
| qccbf (kw : kwargs)
| cbfqroiquant (kw : kwargs)
| CBFSummary (kw : kwargs)
| CBFtsSummary (kw : kwargs)
| DerivativesDataSink (kw : kwargs).

Definition interface_kwargs (i : Interface) : kwargs :=
  match i with
  | niu_IdentityInterface _ | niu_Merge _ => []
  | ApplyTransforms kw | Resample kw | extractCBF kw | computeCBF kw
  | scorescrubCBF kw | BASILCBF kw | refinemask kw | qccbf kw
  | cbfqroiquant kw | CBFSummary kw | CBFtsSummary kw
  | DerivativesDataSink kw => kw
  end.

Definition kw_lookup (kw : kwargs) (key : string) : option pyval :=
  snd <$> List.find (fun p => String.eqb (fst p) key) kw.

Record Node : Type := pe_Node { node_interface : Interface; node_name : string }.

(** A function attached to the source side of a connection. *)
Definition connect_fn : Type := pyval -> result pyval.

Inductive source : Type :=
| Field (field : string)
| FieldFn (field : string) (fn : connect_fn).

Definition connection : Type := Node * Node * list (source * string).

Record Edge : Type := mkEdge {
  e_src : string;
  e_out : string;
  e_fn : option connect_fn;
  e_dst : string;
  e_in : string
}.

Record Workflow : Type := mkWorkflow {
  wf_name : string;
  wf_nodes : list Node;
  wf_edges : list Edge
}.

Definition Workflow_new (name : string) : Workflow :=
  {| wf_name := name; wf_nodes := []; wf_edges := [] |}.

(** A node is identified by its name: every constructor below creates one
    node object per name. *)
Definition has_node (wf : Workflow) (n : string) : bool :=
  existsb (fun m => String.eqb (node_name m) n) (wf_nodes wf).

Definition add_node (wf : Workflow) (n : Node) : Workflow :=
  if has_node wf (node_name n) then wf
  else {| wf_name := wf_name wf; wf_nodes := wf_nodes wf ++ [n]; wf_edges := wf_edges wf |}.

Definition edge_into (dst port : string) (e : Edge) : bool :=
  String.eqb (e_dst e) dst && String.eqb (e_in e) port.

Definition connected (wf : Workflow) (dst port : string) : bool :=
  existsb (edge_into dst port) (wf_edges wf).

Definition mk_edge (src : Node) (s : source) (dst : Node) (dest : string) : Edge :=
  match s with
  | Field f => mkEdge (node_name src) f None (node_name dst) dest
  | FieldFn f fn => mkEdge (node_name src) f (Some fn) (node_name dst) dest
  end.

(** One [(source, dest)] pair of a connection tuple: an input port that has a
    writer already is refused. *)
Definition connect_port (src dst : Node) (wf : Workflow) (c : source * string) : result Workflow :=
  if connected wf (node_name dst) (snd c)
  then Err (AlreadyConnected (node_name dst) (snd c))
  else Ok {| wf_name := wf_name wf; wf_nodes := wf_nodes wf;
             wf_edges := wf_edges wf ++ [mk_edge src (fst c) dst (snd c)] |}.

Fixpoint connect_ports (src dst : Node) (wf : Workflow) (cs : list (source * string)) : result Workflow :=
  match cs with
  | [] => Ok wf
  | c :: cs' => wf' ← connect_port src dst wf c; connect_ports src dst wf' cs'
  end.

Fixpoint connect_all (wf : Workflow) (l : list connection) : result Workflow :=
  match l with
  | [] => Ok wf
  | (src, dst, cs) :: l' =>
      wf' ← connect_ports src dst (add_node (add_node wf src) dst) cs;
      connect_all wf' l'
  end.

Definition merge_ports (numinputs : nat) : list string :=
  map (fun i : nat => "in" +:+ pretty i) (seq 1 numinputs).

(** The ports of the utility interfaces; those of the processing interfaces
    are declared outside this module and are not checked here. *)
Definition output_ports (i : Interface) : option (list string) :=
  match i with
  | niu_IdentityInterface fields => Some fields
  | niu_Merge _ => Some ["out"]
  | _ => None
  end.

Definition input_ports (i : Interface) : option (list string) :=
  match i with
  | niu_IdentityInterface fields => Some fields
  | niu_Merge n => Some ((merge_ports n ++ ["axis"; "no_flatten"; "ravel_inputs"])%list)
  | _ => None
  end.

Definition has_port (ports : option (list string)) (p : string) : bool :=
  match ports with
  | Some l => existsb (String.eqb p) l
  | None => true
  end.

Definition source_field (s : source) : string :=
  match s with
  | Field f => f
  | FieldFn f _ => f
  end.

Definition not_found (l : list connection) : list (string * string) :=
  flat_map (fun c : connection =>
    let '(src, dst, cs) := c in
    flat_map (fun sd : source * string =>
      (if has_port (input_ports (node_interface dst)) (snd sd) then []
       else [(node_name dst, snd sd)]) ++
      (if has_port (output_ports (node_interface src)) (source_field (fst sd)) then []
       else [(node_name src, source_field (fst sd))])) cs) l.

(** [workflow.connect(connection_list)]: a second writer to an input port is
    refused at once, a port that a utility node does not have after the whole
    list has been looked at; only then are the edges added. *)
Definition connect (wf : Workflow) (l : list connection) : result Workflow :=
  wf' ← connect_all wf l;
  match not_found l with
  | [] => Ok wf'
  | (n, p) :: _ => Err (PortNotFound n p)
  end.

(** ** What a port receives

    The value an input port receives, for the part of a graph made of
    utility nodes: an [IdentityInterface] hands each field through, a
    [Merge] concatenates its inputs [in1], [in2], ... in this order (a list
    input is spliced in, an undefined one skipped), and a function on a
    connection is applied to the value set on the field.  [None] is nipype's
    [Undefined]; what a function on a connection does with it is not
    modelled.  The processing interfaces are opaque. *)

Definition find_edge (wf : Workflow) (dst port : string) : option Edge :=
  List.find (edge_into dst port) (wf_edges wf).

Definition find_node (wf : Workflow) (n : string) : option Node :=
  List.find (fun m => String.eqb (node_name m) n) (wf_nodes wf).

Definition merge_values (vs : list (option pyval)) : list pyval :=
  concat (map (fun v => match v with
                        | None => []
                        | Some (VList l) => l
                        | Some x => [x]
                        end) vs).

Fixpoint result_map {A B} (f : A -> result B) (l : list A) : result (list B) :=
  match l with
  | [] => Ok []
  | x :: l' => y ← f x; ys ← result_map f l'; Ok (y :: ys)
  end.

Definition apply_fn (fn : option connect_fn) (v : option pyval) : result (option pyval) :=
  match fn, v with
  | Some f, Some x => y ← f x; Ok (Some y)
  | Some _, None => Err (NotModelled "function on an undefined value")
  | None, _ => Ok v
  end.

Fixpoint out_value (fuel : nat) (wf : Workflow) (inputs : gmap string pyval)
    (n field : string) : result (option pyval) :=
  match fuel with
  | O => Err RecursionLimit
  | S fuel' =>
      match find_node wf n with
      | None => Err (NotModelled n)
      | Some nd =>
          let in_val (port : string) : result (option pyval) :=
            match find_edge wf n port with
            | Some e =>
                v ← out_value fuel' wf inputs (e_src e) (e_out e);
                apply_fn (e_fn e) v
            | None =>
                if String.eqb n "inputnode" then Ok (inputs !! port)
                else Ok (kw_lookup (interface_kwargs (node_interface nd)) port)
            end in
          match node_interface nd with
          | niu_IdentityInterface fields =>
              if existsb (String.eqb field) fields then in_val field
              else Err (KeyError field)
          | niu_Merge numinputs =>
              if String.eqb field "out" then
                vs ← result_map in_val (merge_ports numinputs);
                Ok (Some (VList (merge_values vs)))
              else Err (KeyError field)
          | _ => Err (NotModelled n)
          end
      end
  end.

(** The value input port [port] of node [n] receives when the caller has set
    [inputs] on the workflow's [inputnode]. *)
Definition in_value (wf : Workflow) (inputs : gmap string pyval) (n port : string)
    : result (option pyval) :=
  match find_edge wf n port with
  | Some e =>
      v ← out_value (S (length (wf_nodes wf))) wf inputs (e_src e) (e_out e);
      apply_fn (e_fn e) v
  | None =>
      match find_node wf n with
      | Some nd =>
          if String.eqb n "inputnode" then Ok (inputs !! port)
          else Ok (kw_lookup (interface_kwargs (node_interface nd)) port)
      | None => Err (NotModelled n)
      end
  end.

(** ** The functions attached to connections *)

Module CbfCompt.

Definition _pick_csf (files : pyval) : result pyval := getitem files (-1).

Definition _pick_gm (files : pyval) : result pyval := getitem files 0.

Definition _pick_wm (files : pyval) : result pyval := getitem files 1.

Definition _getfiledir (file : pyval) : result pyval :=
  match file with
  | VStr p => Ok (VStr (dirname p))
  | _ => Err TypeError
  end.

End CbfCompt.

Module CbfQc.

Definition _pick_csf (files : pyval) : result pyval := getitem files (-1).

Definition _pick_gm (files : pyval) : result pyval := getitem files 0.

Definition _pick_wm (files : pyval) : result pyval := getitem files 1.

End CbfQc.

(** ** The workflow constructors *)

Section Constructors.

(** [numpy.add], the template lookup of templateflow and the atlas lookup
    of [interfaces.cbf_computation] are taken as given. *)
Variable np_add : pyval -> pyval -> result pyval.
Variable get_template : string -> kwargs -> string.
Variable get_atlas : string -> pyval * pyval * pyval.

(** Defaults in the source: [smooth_kernel=5], [name='cbf_compt_wf']. *)
Definition init_cbf_compt_wf (mem_gb : pyval) (metadata : gmap string pyval)
    (dummy_vols omp_nthreads smooth_kernel : pyval) (name : string) : result Workflow :=
  let workflow := Workflow_new name in
  let inputnode :=
    pe_Node (niu_IdentityInterface ["bold_file"; "bold"; "bold_mask"; "t1w_tpms";
                                    "t1w_mask"; "t1_bold_xform"; "itk_bold_to_t1"])
            "inputnode" in
  let outputnode :=
    pe_Node (niu_IdentityInterface ["out_cbf"; "out_mean"; "out_score"; "out_avgscore";
                                    "out_scrub"; "out_cbfb"; "out_scoreindex"; "out_cbfpv"])
            "outputnode" in
  let csf_tfm :=
    pe_Node (ApplyTransforms [("interpolation", VStr "NearestNeighbor"); ("float", VBool true)])
            "csf_tfm" in
  let wm_tfm :=
    pe_Node (ApplyTransforms [("interpolation", VStr "NearestNeighbor"); ("float", VBool true)])
            "wm_tfm" in
  let gm_tfm :=
    pe_Node (ApplyTransforms [("interpolation", VStr "NearestNeighbor"); ("float", VBool true)])
            "gm_tfm" in
  let extractcbf :=
    pe_Node (extractCBF [("dummy_vols", dummy_vols); ("fwhm", smooth_kernel)]) "extractcbf" in
  let computecbf :=
    pe_Node (computeCBF [("in_metadata", VDict metadata)]) "computecbf" in
  let scorescrub :=
    pe_Node (scorescrubCBF [("in_thresh", VFloat 0.7); ("in_wfun", VStr "huber")])
            "scorescrub" in
  m0scale ← dict_getitem metadata "M0";
  bolus ← dict_getitem metadata "PostLabelingDelay";
  m0tr ← dict_getitem metadata "RepetitionTime";
  pld ← dict_getitem metadata "PostLabelingDelay";
  ld ← dict_getitem metadata "LabelingDuration";
  tis ← np_add pld ld;
  pcasl ← pcaslorasl metadata;
  let basilcbf :=
    pe_Node (BASILCBF [("m0scale", m0scale); ("bolus", bolus); ("m0tr", m0tr);
                       ("pvc", VBool true); ("tis", tis); ("pcasl", VBool pcasl)])
            "basilcbf" in
  let refinemaskj := pe_Node (refinemask []) "refinemask" in
  connect workflow [
    (inputnode, extractcbf, [(Field "bold", "in_file"); (Field "bold_file", "bold_file")]);
    (extractcbf, computecbf, [(Field "out_file", "in_cbf"); (Field "out_avg", "in_m0file")]);
    (inputnode, refinemaskj, [(Field "t1w_mask", "in_t1mask"); (Field "bold_mask", "in_boldmask");
                              (Field "t1_bold_xform", "transforms")]);
    (refinemaskj, computecbf, [(Field "out_mask", "in_mask")]);
    (refinemaskj, scorescrub, [(Field "out_mask", "in_mask")]);
    (refinemaskj, basilcbf, [(Field "out_mask", "mask")]);
    (inputnode, basilcbf, [(FieldFn "bold" CbfCompt._getfiledir, "out_basename")]);
    (refinemaskj, extractcbf, [(Field "out_mask", "in_mask")]);
    (inputnode, csf_tfm, [(Field "bold_mask", "reference_image");
                          (Field "t1_bold_xform", "transforms")]);
    (inputnode, csf_tfm, [(FieldFn "t1w_tpms" CbfCompt._pick_csf, "input_image")]);
    (inputnode, wm_tfm, [(Field "bold_mask", "reference_image");
                         (Field "t1_bold_xform", "transforms")]);
    (inputnode, wm_tfm, [(FieldFn "t1w_tpms" CbfCompt._pick_wm, "input_image")]);
    (inputnode, gm_tfm, [(Field "bold_mask", "reference_image");
                         (Field "t1_bold_xform", "transforms")]);
    (inputnode, gm_tfm, [(FieldFn "t1w_tpms" CbfCompt._pick_gm, "input_image")]);
    (computecbf, scorescrub, [(Field "out_cbf", "in_file")]);
    (gm_tfm, scorescrub, [(Field "output_image", "in_greyM")]);
    (wm_tfm, scorescrub, [(Field "output_image", "in_whiteM")]);
    (csf_tfm, scorescrub, [(Field "output_image", "in_csf")]);
    (extractcbf, basilcbf, [(Field "out_file", "in_file")]);
    (gm_tfm, basilcbf, [(Field "output_image", "pvgm")]);
    (wm_tfm, basilcbf, [(Field "output_image", "pvwm")]);
    (extractcbf, basilcbf, [(Field "out_avg", "mzero")]);
    (basilcbf, outputnode, [(Field "out_cbfb", "out_cbfb");
                            (Field "out_cbfpv", "out_cbfpv")]);
    (computecbf, outputnode, [(Field "out_cbf", "out_cbf");
                              (Field "out_mean", "out_mean")]);
    (scorescrub, outputnode, [(Field "out_score", "out_score");
                              (Field "out_scoreindex", "out_scoreindex");
                              (Field "out_avgscore", "out_avgscore");
                              (Field "out_scrub", "out_scrub")])
  ].

Definition init_cbfqc_compt_wf (mem_gb bold_file : pyval) (metadata : gmap string pyval)
    (omp_nthreads : pyval) (name : string) : result Workflow :=
  let workflow := Workflow_new name in
  let inputnode :=
    pe_Node (niu_IdentityInterface ["meancbf"; "avgscore"; "scrub"; "basil";
                                    "bold_mask"; "t1w_tpms"; "confmat";
                                    "bold_mask_std"; "t1_bold_xform"; "pv";
                                    "t1w_mask"])
            "inputnode" in
  let outputnode := pe_Node (niu_IdentityInterface ["qc_file"]) "outputnode" in
  let csf_tfm :=
    pe_Node (ApplyTransforms [("interpolation", VStr "NearestNeighbor"); ("float", VBool true)])
            "csf_tfm" in
  let wm_tfm :=
    pe_Node (ApplyTransforms [("interpolation", VStr "NearestNeighbor"); ("float", VBool true)])
            "wm_tfm" in
  let gm_tfm :=
    pe_Node (ApplyTransforms [("interpolation", VStr "NearestNeighbor"); ("float", VBool true)])
            "gm_tfm" in
  let mask_tfm :=
    pe_Node (ApplyTransforms [("interpolation", VStr "NearestNeighbor"); ("float", VBool true)])
            "masktonative" in
  let brain_mask :=
    get_template "MNI152NLin2009cAsym"
                 [("resolution", VInt 2); ("desc", VStr "brain"); ("suffix", VStr "mask")] in
  let resample :=
    pe_Node (Resample [("in_file", VStr brain_mask); ("outputtype", VStr "NIFTI_GZ")])
            "resample" in
  let qccompute := pe_Node (qccbf [("in_file", bold_file)]) "qccompute" in
  connect workflow [
    (inputnode, csf_tfm, [(Field "bold_mask", "reference_image");
                          (Field "t1_bold_xform", "transforms")]);
    (inputnode, csf_tfm, [(FieldFn "t1w_tpms" CbfQc._pick_csf, "input_image")]);
    (inputnode, wm_tfm, [(Field "bold_mask", "reference_image");
                         (Field "t1_bold_xform", "transforms")]);
    (inputnode, wm_tfm, [(FieldFn "t1w_tpms" CbfQc._pick_wm, "input_image")]);
    (inputnode, gm_tfm, [(Field "bold_mask", "reference_image");
                         (Field "t1_bold_xform", "transforms")]);
    (inputnode, gm_tfm, [(FieldFn "t1w_tpms" CbfQc._pick_gm, "input_image")]);
    (inputnode, mask_tfm, [(Field "bold_mask", "reference_image");
                           (Field "t1_bold_xform", "transforms");
                           (Field "t1w_mask", "input_image")]);
    (mask_tfm, qccompute, [(Field "output_image", "in_t1mask")]);
    (inputnode, qccompute, [(Field "bold_mask", "in_boldmask");
                            (Field "confmat", "in_confmat")]);
    (inputnode, qccompute, [(FieldFn "bold_mask_std" CbfQc._pick_csf, "in_boldmaskstd")]);
    (inputnode, resample, [(FieldFn "bold_mask_std" CbfQc._pick_csf, "master")]);
    (resample, qccompute, [(Field "out_file", "in_templatemask")]);
    (gm_tfm, qccompute, [(Field "output_image", "in_greyM")]);
    (wm_tfm, qccompute, [(Field "output_image", "in_whiteM")]);
    (csf_tfm, qccompute, [(Field "output_image", "in_csf")]);
    (inputnode, qccompute, [(Field "scrub", "in_scrub");
                            (Field "meancbf", "in_meancbf");
                            (Field "avgscore", "in_avgscore");
                            (Field "basil", "in_basil"); (Field "pv", "in_pvc")]);
    (qccompute, outputnode, [(Field "qc_file", "qc_file")])
  ].

(** The source also prints the segmentation path; standard output is not
    modelled. *)
Definition init_cbfplot_wf (mem_gb : pyval) (metadata : gmap string pyval)
    (omp_nthreads : pyval) (name : string) : result Workflow :=
  let workflow := Workflow_new name in
  let inputnode :=
    pe_Node (niu_IdentityInterface ["cbf"; "cbf_ts"; "score_ts"; "score";
                                    "scrub"; "bold_ref"; "basil"; "pvc";
                                    "bold_mask"; "t1_bold_xform"; "std2anat_xfm";
                                    "confounds_file"; "scoreindex"])
            "inputnode" in
  let outputnode :=
    pe_Node (niu_IdentityInterface ["cbf_carpetplot"; "score_carpetplot";
                                    "cbf_summary_plot"; "cbf_summary_plot";
                                    "score_summary_plot"; "scrub_summary_plot";
                                    "basil_summary_plot"; "pvc_summary_plot"])
            "outputnode" in
  let mrg_xfms := pe_Node (niu_Merge 2) "mrg_xfms" in
  let seg :=
    get_template "MNI152NLin2009cAsym"
                 [("resolution", VInt 1); ("desc", VStr "carpet"); ("suffix", VStr "dseg")] in
  let resample_parc :=
    pe_Node (ApplyTransforms [("float", VBool true); ("input_image", VStr seg);
                              ("dimension", VInt 3); ("default_value", VInt 0);
                              ("interpolation", VStr "MultiLabel")])
            "resample_parc" in
  tr ← dict_getitem metadata "RepetitionTime";
  let cbftssummary := pe_Node (CBFtsSummary [("tr", tr)]) "cbf_ts_summary" in
  let cbfsummary := pe_Node (CBFSummary [("label", VStr "cbf")]) "cbf_summary" in
  let scoresummary := pe_Node (CBFSummary [("label", VStr "score")]) "score_summary" in
  let scrubsummary := pe_Node (CBFSummary [("label", VStr "scrub")]) "scrub_summary" in
  let basilsummary := pe_Node (CBFSummary [("label", VStr "basil")]) "basil_summary" in
  let pvcsummary := pe_Node (CBFSummary [("label", VStr "pvc")]) "pvc_summary" in
  let ds_report_cbftsplot :=
    pe_Node (DerivativesDataSink [("desc", VStr "cbftsplot"); ("datatype", VStr "figures"); ("keep_dtype", VBool true)])
            "ds_report_cbftsplot" in
  let ds_report_cbfplot :=
    pe_Node (DerivativesDataSink [("desc", VStr "cbfplot"); ("datatype", VStr "figures"); ("keep_dtype", VBool true)])
            "ds_report_cbfplot" in
  let ds_report_scoreplot :=
    pe_Node (DerivativesDataSink [("desc", VStr "scoreplot"); ("datatype", VStr "figures"); ("keep_dtype", VBool true)])
            "ds_report_scoreplot" in
  let ds_report_scrubplot :=
    pe_Node (DerivativesDataSink [("desc", VStr "scrubplot"); ("datatype", VStr "figures"); ("keep_dtype", VBool true)])
            "ds_report_scrubplot" in
  let ds_report_basilplot :=
    pe_Node (DerivativesDataSink [("desc", VStr "basilplot"); ("datatype", VStr "figures"); ("keep_dtype", VBool true)])
            "ds_report_basilplot" in
  let ds_report_pvcplot :=
    pe_Node (DerivativesDataSink [("desc", VStr "pvcplot"); ("datatype", VStr "figures"); ("keep_dtype", VBool true)])
            "ds_report_pvcplot" in
  connect workflow [
    (inputnode, mrg_xfms, [(Field "t1_bold_xform", "in1"); (Field "std2anat_xfm", "in2")]);
    (inputnode, resample_parc, [(Field "bold_mask", "reference_image")]);
    (mrg_xfms, resample_parc, [(Field "out", "transforms")]);
    (resample_parc, cbftssummary, [(Field "output_image", "seg_file")]);
    (inputnode, cbftssummary, [(Field "cbf_ts", "cbf_ts");
                               (Field "confounds_file", "conf_file");
                               (Field "scoreindex", "score_file")]);
    (cbftssummary, ds_report_cbftsplot, [(Field "out_file", "in_file")]);
    (cbftssummary, outputnode, [(Field "out_file", "cbf_carpetplot")]);
    (inputnode, cbfsummary, [(Field "cbf", "cbf"); (Field "bold_ref", "ref_vol")]);
    (cbfsummary, ds_report_cbfplot, [(Field "out_file", "in_file")]);
    (cbfsummary, outputnode, [(Field "out_file", "cbf_summary_plot")]);
    (inputnode, scoresummary, [(Field "score", "cbf"); (Field "bold_ref", "ref_vol")]);
    (scoresummary, ds_report_scoreplot, [(Field "out_file", "in_file")]);
    (scoresummary, outputnode, [(Field "out_file", "score_summary_plot")]);
    (inputnode, scrubsummary, [(Field "scrub", "cbf"); (Field "bold_ref", "ref_vol")]);
    (scrubsummary, ds_report_scrubplot, [(Field "out_file", "in_file")]);
    (scrubsummary, outputnode, [(Field "out_file", "scrub_summary_plot")]);
    (inputnode, basilsummary, [(Field "basil", "cbf"); (Field "bold_ref", "ref_vol")]);
    (basilsummary, ds_report_basilplot, [(Field "out_file", "in_file")]);
    (basilsummary, outputnode, [(Field "out_file", "basil_summary_plot")]);
    (inputnode, pvcsummary, [(Field "pvc", "cbf"); (Field "bold_ref", "ref_vol")]);
    (pvcsummary, ds_report_pvcplot, [(Field "out_file", "in_file")]);
    (pvcsummary, outputnode, [(Field "out_file", "pvc_summary_plot")])
  ].

Definition init_cbfroiquant_wf (mem_gb omp_nthreads : pyval) (name : string) : result Workflow :=
  let workflow := Workflow_new name in
  let inputnode :=
    pe_Node (niu_IdentityInterface ["cbf"; "score"; "scrub"; "basil"; "pvc";
                                    "boldmask"; "t1_bold_xform";
                                    "std2anat_xfm"])
            "inputnode" in
  let outputnode :=
    pe_Node (niu_IdentityInterface
               ["cbf_hvoxf"; "score_hvoxf"; "scrub_hvoxf"; "basil_hvoxf"; "pvc_hvoxf";
                "cbf_sc207"; "score_sc207"; "scrub_sc207"; "basil_sc207"; "pvc_sc207";
                "cbf_sc217"; "score_sc217"; "scrub_sc217"; "basil_sc217"; "pvc_sc217";
                "cbf_sc407"; "score_sc407"; "scrub_sc407"; "basil_sc407"; "pvc_sc407";
                "cbf_sc417"; "score_sc417"; "scrub_sc417"; "basil_sc417"; "pvc_sc417"])
            "outputnode" in
  let '(hvoxfile, hvoxdata, hvoxlabel) := get_atlas "HarvardOxford" in
  let '(sc207file, sc207data, sc207label) := get_atlas "schaefer200x7" in
  let '(sc217file, sc217data, sc217label) := get_atlas "schaefer200x17" in
  let '(sc407file, sc407data, sc407label) := get_atlas "schaefer400x7" in
  let '(sc417file, sc417data, sc417label) := get_atlas "schaefer400x17" in
  let mrg_xfms := pe_Node (niu_Merge 2) "mrg_xfms" in
  let hvoftrans :=
    pe_Node (ApplyTransforms [("float", VBool true); ("input_image", hvoxfile);
                              ("dimension", VInt 3); ("default_value", VInt 0);
                              ("interpolation", VStr "NearestNeighbor")])
            "hvoftrans" in
  let sc207trans :=
    pe_Node (ApplyTransforms [("float", VBool true); ("input_image", sc207file);
                              ("dimension", VInt 3); ("default_value", VInt 0);
                              ("interpolation", VStr "NearestNeighbor")])
            "sc207trans" in
  let sc217trans :=
    pe_Node (ApplyTransforms [("float", VBool true); ("input_image", sc217file);
                              ("dimension", VInt 3); ("default_value", VInt 0);
                              ("interpolation", VStr "NearestNeighbor")])
            "sc217trans" in
  let sc407trans :=
    pe_Node (ApplyTransforms [("float", VBool true); ("input_image", sc407file);
                              ("dimension", VInt 3); ("default_value", VInt 0);
                              ("interpolation", VStr "NearestNeighbor")])
            "sc407trans" in
  let sc417trans :=
    pe_Node (ApplyTransforms [("float", VBool true); ("input_image", sc417file);
                              ("dimension", VInt 3); ("default_value", VInt 0);
                              ("interpolation", VStr "NearestNeighbor")])
            "sc417trans" in
  let cbfroihv :=
    pe_Node (cbfqroiquant [("atlaslabel", hvoxlabel); ("atlasdata", hvoxdata)]) "cbfroihv" in
  let cbfroi207 :=
    pe_Node (cbfqroiquant [("atlaslabel", sc207label); ("atlasdata", sc207data)]) "cbf207" in
  let cbfroi217 :=
    pe_Node (cbfqroiquant [("atlaslabel", sc217label); ("atlasdata", sc217data)]) "cbf217" in
  let cbfroi407 :=
    pe_Node (cbfqroiquant [("atlaslabel", sc407label); ("atlasdata", sc407data)]) "cbf407" in
  let cbfroi417 :=
    pe_Node (cbfqroiquant [("atlaslabel", sc417label); ("atlasdata", sc417data)]) "cbf417" in
  let scorehv :=
    pe_Node (cbfqroiquant [("atlaslabel", hvoxlabel); ("atlasdata", hvoxdata)]) "scorehv" in
  let score207 :=
    pe_Node (cbfqroiquant [("atlaslabel", sc207label); ("atlasdata", sc207data)]) "score207" in
  let score217 :=
    pe_Node (cbfqroiquant [("atlaslabel", sc217label); ("atlasdata", sc217data)]) "score217" in
  let score407 :=
    pe_Node (cbfqroiquant [("atlaslabel", sc407label); ("atlasdata", sc407data)]) "score407" in
  let score417 :=
    pe_Node (cbfqroiquant [("atlaslabel", sc417label); ("atlasdata", sc417data)]) "score417" in
  let scrubhv :=
    pe_Node (cbfqroiquant [("atlaslabel", hvoxlabel); ("atlasdata", hvoxdata)]) "scrubhv" in
  let scrub207 :=
    pe_Node (cbfqroiquant [("atlaslabel", sc207label); ("atlasdata", sc207data)]) "scrub207" in
  let scrub217 :=
    pe_Node (cbfqroiquant [("atlaslabel", sc217label); ("atlasdata", sc217data)]) "scrub217" in
  let scrub407 :=
    pe_Node (cbfqroiquant [("atlaslabel", sc407label); ("atlasdata", sc407data)]) "scrub407" in
  let scrub417 :=
    pe_Node (cbfqroiquant [("atlaslabel", sc417label); ("atlasdata", sc417data)]) "scrub417" in
  let basilhv :=
    pe_Node (cbfqroiquant [("atlaslabel", hvoxlabel); ("atlasdata", hvoxdata)]) "basilhv" in
  let basil207 :=
    pe_Node (cbfqroiquant [("atlaslabel", sc207label); ("atlasdata", sc207data)]) "basil207" in
  let basil217 :=
    pe_Node (cbfqroiquant [("atlaslabel", sc217label); ("atlasdata", sc217data)]) "basil217" in
  let basil407 :=
    pe_Node (cbfqroiquant [("atlaslabel", sc407label); ("atlasdata", sc407data)]) "basil407" in
  let basil417 :=
    pe_Node (cbfqroiquant [("atlaslabel", sc417label); ("atlasdata", sc417data)]) "basil417" in
  let pvchv :=
    pe_Node (cbfqroiquant [("atlaslabel", hvoxlabel); ("atlasdata", hvoxdata)]) "pvchv" in
  let pvc207 :=
    pe_Node (cbfqroiquant [("atlaslabel", sc207label); ("atlasdata", sc207data)]) "pvc207" in
  let pvc217 :=
    pe_Node (cbfqroiquant [("atlaslabel", sc217label); ("atlasdata", sc217data)]) "pvc217" in
  let pvc407 :=
    pe_Node (cbfqroiquant [("atlaslabel", sc407label); ("atlasdata", sc407data)]) "pvc407" in
  let pvc417 :=
    pe_Node (cbfqroiquant [("atlaslabel", sc417label); ("atlasdata", sc417data)]) "pvc417" in
  connect workflow [
    (inputnode, mrg_xfms, [(Field "t1_bold_xform", "in1");
                           (Field "std2anat_xfm", "in2")]);
    (inputnode, hvoftrans, [(Field "boldmask", "reference_image")]);
    (mrg_xfms, hvoftrans, [(Field "out", "transforms")]);
    (inputnode, sc207trans, [(Field "boldmask", "reference_image")]);
    (mrg_xfms, sc207trans, [(Field "out", "transforms")]);
    (inputnode, sc217trans, [(Field "boldmask", "reference_image")]);
    (mrg_xfms, sc217trans, [(Field "out", "transforms")]);
    (inputnode, sc407trans, [(Field "boldmask", "reference_image")]);
    (mrg_xfms, sc407trans, [(Field "out", "transforms")]);
    (inputnode, sc417trans, [(Field "boldmask", "reference_image")]);
    (mrg_xfms, sc417trans, [(Field "out", "transforms")]);
    (hvoftrans, cbfroihv, [(Field "output_image", "atlasfile")]);
    (hvoftrans, scorehv, [(Field "output_image", "atlasfile")]);
    (hvoftrans, scrubhv, [(Field "output_image", "atlasfile")]);
    (hvoftrans, basilhv, [(Field "output_image", "atlasfile")]);
    (hvoftrans, pvchv, [(Field "output_image", "atlasfile")]);
    (sc207trans, cbfroi207, [(Field "output_image", "atlasfile")]);
    (sc207trans, score207, [(Field "output_image", "atlasfile")]);
    (sc207trans, scrub207, [(Field "output_image", "atlasfile")]);
    (sc207trans, basil207, [(Field "output_image", "atlasfile")]);
    (sc207trans, pvc207, [(Field "output_image", "atlasfile")]);
    (sc217trans, cbfroi217, [(Field "output_image", "atlasfile")]);
    (sc217trans, score217, [(Field "output_image", "atlasfile")]);
    (sc217trans, scrub217, [(Field "output_image", "atlasfile")]);
    (sc217trans, basil217, [(Field "output_image", "atlasfile")]);
    (sc217trans, pvc217, [(Field "output_image", "atlasfile")]);
    (sc407trans, cbfroi407, [(Field "output_image", "atlasfile")]);
    (sc407trans, score407, [(Field "output_image", "atlasfile")]);
    (sc407trans, scrub407, [(Field "output_image", "atlasfile")]);
    (sc407trans, basil407, [(Field "output_image", "atlasfile")]);
    (sc407trans, pvc407, [(Field "output_image", "atlasfile")]);
    (sc417trans, cbfroi417, [(Field "output_image", "atlasfile")]);
    (sc417trans, score417, [(Field "output_image", "atlasfile")]);
    (sc417trans, scrub417, [(Field "output_image", "atlasfile")]);
    (sc417trans, basil417, [(Field "output_image", "atlasfile")]);
    (sc417trans, pvc417, [(Field "output_image", "atlasfile")]);
    (inputnode, cbfroihv, [(Field "cbf", "in_cbf")]);
    (inputnode, scorehv, [(Field "score", "in_cbf")]);
    (inputnode, scrubhv, [(Field "scrub", "in_cbf")]);
    (inputnode, basilhv, [(Field "basil", "in_cbf")]);
    (inputnode, pvchv, [(Field "pvc", "in_cbf")]);
    (inputnode, cbfroi207, [(Field "cbf", "in_cbf")]);
    (inputnode, score207, [(Field "score", "in_cbf")]);
    (inputnode, scrub207, [(Field "scrub", "in_cbf")]);
    (inputnode, basil207, [(Field "basil", "in_cbf")]);
    (inputnode, pvc207, [(Field "pvc", "in_cbf")]);
    (inputnode, cbfroi217, [(Field "cbf", "in_cbf")]);
    (inputnode, score217, [(Field "score", "in_cbf")]);
    (inputnode, scrub217, [(Field "scrub", "in_cbf")]);
    (inputnode, basil217, [(Field "basil", "in_cbf")]);
    (inputnode, pvc217, [(Field "pvc", "in_cbf")]);
    (inputnode, cbfroi407, [(Field "cbf", "in_cbf")]);
    (inputnode, score407, [(Field "score", "in_cbf")]);
    (inputnode, scrub407, [(Field "scrub", "in_cbf")]);
    (inputnode, basil407, [(Field "basil", "in_cbf")]);
    (inputnode, pvc407, [(Field "pvc", "in_cbf")]);
    (inputnode, cbfroi417, [(Field "cbf", "in_cbf")]);
    (inputnode, score417, [(Field "score", "in_cbf")]);
    (inputnode, scrub417, [(Field "scrub", "in_cbf")]);
    (inputnode, basil417, [(Field "basil", "in_cbf")]);
    (inputnode, pvc417, [(Field "pvc", "in_cbf")]);
    (cbfroihv, outputnode, [(Field "atlascsv", "cbf_hvoxf")]);
    (cbfroi207, outputnode, [(Field "atlascsv", "cbf_sc207")]);
    (cbfroi217, outputnode, [(Field "atlascsv", "cbf_sc217")]);
    (cbfroi407, outputnode, [(Field "atlascsv", "cbf_sc407")]);
    (cbfroi417, outputnode, [(Field "atlascsv", "cbf_sc417")]);
    (scorehv, outputnode, [(Field "atlascsv", "score_hvoxf")]);
    (score207, outputnode, [(Field "atlascsv", "score_sc207")]);
    (score217, outputnode, [(Field "atlascsv", "score_sc217")]);
    (score407, outputnode, [(Field "atlascsv", "score_sc407")]);
    (score417, outputnode, [(Field "atlascsv", "score_sc417")]);
    (scrubhv, outputnode, [(Field "atlascsv", "scrub_hvoxf")]);
    (scrub207, outputnode, [(Field "atlascsv", "scrub_sc207")]);
    (scrub217, outputnode, [(Field "atlascsv", "scrub_sc217")]);
    (scrub407, outputnode, [(Field "atlascsv", "scrub_sc407")]);
    (scrub417, outputnode, [(Field "atlascsv", "scrub_sc417")]);
    (basilhv, outputnode, [(Field "atlascsv", "basil_hvoxf")]);
    (basil207, outputnode, [(Field "atlascsv", "basil_sc207")]);
    (basil217, outputnode, [(Field "atlascsv", "basil_sc217")]);
    (basil407, outputnode, [(Field "atlascsv", "basil_sc407")]);
    (basil417, outputnode, [(Field "atlascsv", "basil_sc417")]);
    (pvchv, outputnode, [(Field "atlascsv", "pvc_hvoxf")]);
    (pvc207, outputnode, [(Field "atlascsv", "pvc_sc207")]);
    (pvc217, outputnode, [(Field "atlascsv", "pvc_sc217")]);
    (pvc407, outputnode, [(Field "atlascsv", "pvc_sc407")]);
    (pvc417, outputnode, [(Field "atlascsv", "pvc_sc417")])
  ].

End Constructors.

(** ** Vocabulary of the properties *)

(** [needle] occurs in [s]. *)
Definition occurs_in (needle s : string) : Prop :=
  exists pre post : string, s = pre +:+ needle +:+ post.

(** An edge without its function: producer, output port, consumer, input port. *)
Definition edge_key (e : Edge) : string * string * string * string :=
  (e_src e, e_out e, e_dst e, e_in e).

Definition wiring (wf : Workflow) : list (string * string * string * string) :=
  map edge_key (wf_edges wf).

Definition from_node (src : string) (k : string * string * string * string) : bool :=
  String.eqb k.1.1.1 src.

Definition from_port (src out : string) (k : string * string * string * string) : bool :=
  String.eqb k.1.1.1 src && String.eqb k.1.1.2 out.

Definition into_node (dst : string) (k : string * string * string * string) : bool :=
  String.eqb k.1.2 dst.

Definition into_port (dst port : string) (k : string * string * string * string) : bool :=
  String.eqb k.1.2 dst && String.eqb k.2 port.

Definition member (l : list string) (s : string) : bool := existsb (String.eqb s) l.

(** The three estimator nodes of the CBF-computation workflow: the basic
    model, the outlier-robust SCORE/SCRUB node and BASIL. *)
Definition estimators : list string := ["computecbf"; "scorescrub"; "basilcbf"].

(** No edge leads from one estimator to another. *)
Definition estimators_independent (wf : Workflow) : Prop :=
  forall e, e ∈ wf_edges wf -> ~ (e_src e ∈ estimators /\ e_dst e ∈ estimators).

Definition between (l : list string) (k : string * string * string * string) : bool :=
  member l k.1.1.1 && member l k.1.2.

Definition is_ApplyTransforms (n : Node) : bool :=
  match node_interface n with
  | ApplyTransforms _ => true
  | _ => false
  end.

Definition is_cbfqroiquant (n : Node) : bool :=
  match node_interface n with
  | cbfqroiquant _ => true
  | _ => false
  end.

(** The writer of an input port, and the readers of a node. *)
Definition producer (wf : Workflow) (dst port : string) : option (string * string) :=
  (fun e => (e_src e, e_out e)) <$> find_edge wf dst port.

Definition readers (wf : Workflow) (src : string) : list (string * string * string) :=
  map (fun k : string * string * string * string => (k.1.1.2, k.1.2, k.2))
      (List.filter (from_node src) (wiring wf)).

Definition node_kwarg (n : Node) (key : string) : option pyval :=
  kw_lookup (interface_kwargs (node_interface n)) key.

(** The graph of a workflow: [a] feeds [b] when some edge leads from a port of
    [a] to a port of [b]; the workflow is acyclic when no node reaches itself. *)
Definition feeds (wf : Workflow) (a b : string) : Prop :=
  exists e, e ∈ wf_edges wf /\ e_src e = a /\ e_dst e = b.

Definition acyclic (wf : Workflow) : Prop := forall n, ~ tc (feeds wf) n n.

(** A certificate of acyclicity: a listing of the nodes along which every
    edge points forward. *)
Fixpoint rank_of (order : list string) (n : string) : nat :=
  match order with
  | [] => O
  | m :: order' => if String.eqb m n then O else S (rank_of order' n)
  end.

Definition forward (order : list string) (wf : Workflow) : bool :=
  forallb (fun e => Nat.ltb (rank_of order (e_src e)) (rank_of order (e_dst e)))
          (wf_edges wf).

(** The workflows the four constructors return. *)
Inductive constructed (wf : Workflow) : Prop :=
| by_cbf_compt np_add mem_gb metadata dummy_vols omp_nthreads smooth_kernel name :
    init_cbf_compt_wf np_add mem_gb metadata dummy_vols omp_nthreads smooth_kernel name = Ok wf ->
    constructed wf
| by_cbfqc_compt get_template mem_gb bold_file metadata omp_nthreads name :
    init_cbfqc_compt_wf get_template mem_gb bold_file metadata omp_nthreads name = Ok wf ->
    constructed wf
| by_cbfplot get_template mem_gb metadata omp_nthreads name :
    init_cbfplot_wf get_template mem_gb metadata omp_nthreads name = Ok wf ->
    constructed wf
| by_cbfroiquant get_atlas mem_gb omp_nthreads name :
    init_cbfroiquant_wf get_atlas mem_gb omp_nthreads name = Ok wf ->
    constructed wf.

(** The two workflows that take the tissue-probability maps. *)
Inductive takes_tpms (wf : Workflow) : Prop :=
| tpms_cbf_compt np_add mem_gb metadata dummy_vols omp_nthreads smooth_kernel name :
    init_cbf_compt_wf np_add mem_gb metadata dummy_vols omp_nthreads smooth_kernel name = Ok wf ->
    takes_tpms wf
| tpms_cbfqc_compt get_template mem_gb bold_file metadata omp_nthreads name :
    init_cbfqc_compt_wf get_template mem_gb bold_file metadata omp_nthreads name = Ok wf ->
    takes_tpms wf.

(** The two workflows that project a template-space image through the merged
    transforms. *)
Inductive projects_template (wf : Workflow) : Prop :=
| proj_cbfplot get_template mem_gb metadata omp_nthreads name :
    init_cbfplot_wf get_template mem_gb metadata omp_nthreads name = Ok wf ->
    projects_template wf
| proj_cbfroiquant get_atlas mem_gb omp_nthreads name :
    init_cbfroiquant_wf get_atlas mem_gb omp_nthreads name = Ok wf ->
    projects_template wf.

(** Modelled from the spec: the resampler behind [ApplyTransforms] is not part
    of this module; a chain of transforms is applied in list order, first
    applied last, that is composed right to left.  [mapping t] is what the
    single transform [t] does to an image. *)
Definition apply_chain {image : Type} (mapping : pyval -> image -> image)
    (chain : list pyval) (img : image) : image :=
  foldr mapping img chain.

(** ** Sample inputs *)

(** An instance of [np_add] for the samples: [numpy.add] on two floats or on
    two ints.  Other operands do not occur in the samples and are reported as
    an error. *)
Definition np_add_scalars (a b : pyval) : result pyval :=
  match a, b with
  | VFloat x, VFloat y => Ok (VFloat (x + y))
  | VInt x, VInt y => Ok (VInt (x + y))
  | _, _ => Err (ExternalError "UFuncTypeError")
  end.

Definition sample_template (template : string) (kw : kwargs) : string :=
  "/templateflow/tpl-" +:+ template +:+ ".nii.gz".

Definition sample_atlas (atlasname : string) : pyval * pyval * pyval :=
  (VStr (atlasname +:+ ".nii.gz"), VStr (atlasname +:+ ".tsv"), VStr (atlasname +:+ ".txt")).

Definition sample_metadata : gmap string pyval :=
  <["RepetitionTime" := VFloat 4.0]>
  (<["PostLabelingDelay" := VFloat 1.5]>
   (<["LabelingDuration" := VFloat 1.8]>
    (<["LabelingType" := VStr "CASL"]>
     (<["M0" := VFloat 1.0]> ∅)))).

Definition sample_metadata_no_labeling : gmap string pyval :=
  delete "LabelingType" sample_metadata.

Definition sample_inputs : gmap string pyval :=
  <["t1w_tpms" := VList [VStr "label-GM_probseg.nii.gz"; VStr "label-WM_probseg.nii.gz";
                         VStr "label-CSF_probseg.nii.gz"]]>
  (<["bold_mask_std" := VList [VStr "space-MNI152NLin6Asym_desc-brain_mask.nii.gz";
                               VStr "space-MNI152NLin2009cAsym_desc-brain_mask.nii.gz"]]>
   (<["t1_bold_xform" := VStr "from-T1w_to-scanner_xfm.txt"]>
    (<["std2anat_xfm" := VStr "from-MNI152NLin2009cAsym_to-T1w_xfm.h5"]> ∅))).

Definition sample_cbf_compt_wf : result Workflow :=
  init_cbf_compt_wf np_add_scalars (VFloat 0.1) sample_metadata (VInt 0) (VInt 1) (VInt 5)
                    "cbf_compt_wf".

Definition sample_cbfqc_compt_wf : result Workflow :=
  init_cbfqc_compt_wf sample_template (VFloat 0.1) (VStr "/data/sub-01/perf/sub-01_asl.nii.gz")
                      sample_metadata (VInt 1) "cbfqc_compt_wf".

Definition sample_cbfplot_wf : result Workflow :=
  init_cbfplot_wf sample_template (VFloat 0.1) sample_metadata (VInt 1) "cbf_plot".

Definition sample_cbfroiquant_wf : result Workflow :=
  init_cbfroiquant_wf sample_atlas (VFloat 0.1) (VInt 1) "cbf_roiquant".

(** ** Further vocabulary: ports, fields, ends of the graph *)

(** The fields an [IdentityInterface] node was declared with. *)
Definition node_fields (wf : Workflow) (n : string) : list string :=
  match find_node wf n with
  | Some nd =>
      match node_interface nd with
      | niu_IdentityInterface fields => fields
      | _ => []
      end
  | None => []
  end.

(** Declared fields of [n] that no connection writes, and that no connection
    reads. *)
Definition unwritten_fields (wf : Workflow) (n : string) : list string :=
  List.filter (fun f => negb (connected wf n f)) (node_fields wf n).

Definition unread_fields (wf : Workflow) (n : string) : list string :=
  List.filter (fun f => negb (existsb (from_port n f) (wiring wf))) (node_fields wf n).

(** Nodes no edge leads into, and nodes no edge leaves. *)
Definition without_writer (wf : Workflow) : list string :=
  List.filter (fun n => negb (existsb (into_node n) (wiring wf)))
              (map node_name (wf_nodes wf)).

Definition without_reader (wf : Workflow) : list string :=
  List.filter (fun n => negb (existsb (from_node n) (wiring wf)))
              (map node_name (wf_nodes wf)).

(** The values Python can index and test membership on. *)
Definition is_container (v : pyval) : bool :=
  match v with
  | VStr _ | VList _ | VDict _ => true
  | _ => false
  end.

(** ** Proof steps

    [built H] turns [H : constructor ... = Ok wf] into the equation between
    the evaluated graph and [wf], after a case split on every lookup the
    constructor performs. *)

Ltac binds H :=
  cbv zeta in H;
  repeat match type of H with
         | mbind _ ?r = Ok _ =>
             let E := fresh "E" in
             destruct r eqn:E; [cbn [mbind result_bind] in H | discriminate H]
         end.

Ltac built H :=
  binds H; vm_compute in H; injection H as H.

(** Closes a goal that only asks to evaluate the graph named by [H]. *)
Ltac by_graph H := try rewrite <- H; vm_compute; reflexivity.

Ltac from_cbf_compt H := unfold init_cbf_compt_wf in H; built H.
Ltac from_cbfqc_compt H := unfold init_cbfqc_compt_wf in H; built H.
Ltac from_cbfplot H := unfold init_cbfplot_wf in H; built H.
Ltac from_cbfroiquant get_atlas H :=
  unfold init_cbfroiquant_wf in H;
  destruct (get_atlas "HarvardOxford") as [[hvoxfile hvoxdata] hvoxlabel] eqn:Ehvox;
  destruct (get_atlas "schaefer200x7") as [[sc207file sc207data] sc207label] eqn:Esc207;
  destruct (get_atlas "schaefer200x17") as [[sc217file sc217data] sc217label] eqn:Esc217;
  destruct (get_atlas "schaefer400x7") as [[sc407file sc407data] sc407label] eqn:Esc407;
  destruct (get_atlas "schaefer400x17") as [[sc417file sc417data] sc417label] eqn:Esc417;
  built H.

(** * Properties *)

(** ** Sanity checks on concrete values *)

Example dirname_1 : dirname "/data/sub-01/perf/asl.nii.gz" = "/data/sub-01/perf".
Proof. reflexivity. Qed.
Example dirname_2 : dirname "asl.nii.gz" = "".
Proof. reflexivity. Qed.
Example dirname_3 : dirname "//asl" = "//".
Proof. reflexivity. Qed.
Example pcasl_1 : pcaslorasl (<["LabelingType" := VStr "PCASL"]> ∅) = Ok true.
Proof. reflexivity. Qed.
Example pcasl_2 : pcaslorasl (<["LabelingType" := VStr "PASL"]> ∅) = Ok false.
Proof. reflexivity. Qed.
Example pcasl_3 : pcaslorasl (<["LabelingType" := VStr "pasl"]> ∅) = Err (UnboundLocalError "pcasl").
Proof. reflexivity. Qed.
Example pcasl_4 : pcaslorasl ∅ = Err (KeyError "LabelingType").
Proof. reflexivity. Qed.
Example getitem_1 : getitem (VList [VInt 1; VInt 2; VInt 3; VInt 4]) (-1) = Ok (VInt 4).
Proof. reflexivity. Qed.
Example getitem_2 : getitem (VList []) (-1) = Err IndexError.
Proof. reflexivity. Qed.
Example getitem_3 : getitem (VStr "mask.nii") (-1) = Ok (VStr "i").
Proof. reflexivity. Qed.
Example connect_second_writer :
  connect (Workflow_new "wf")
    [(pe_Node (niu_IdentityInterface ["a"; "b"]) "inputnode", pe_Node (niu_Merge 2) "mrg",
      [(Field "a", "in1")]);
     (pe_Node (niu_IdentityInterface ["a"; "b"]) "inputnode", pe_Node (niu_Merge 2) "mrg",
      [(Field "b", "in1")])]
  = Err (AlreadyConnected "mrg" "in1").
Proof. reflexivity. Qed.
Example connect_unknown_port :
  connect (Workflow_new "wf")
    [(pe_Node (niu_IdentityInterface ["a"; "b"]) "inputnode", pe_Node (niu_Merge 2) "mrg",
      [(Field "c", "in1")])]
  = Err (PortNotFound "inputnode" "c").
Proof. reflexivity. Qed.
Example merge_flattens :
  merge_values [Some (VList [VStr "a"; VStr "b"]); None; Some (VStr "c")]
  = [VStr "a"; VStr "b"; VStr "c"].
Proof. reflexivity. Qed.

(** ** Strings and sequences *)

Lemma prefix_app (n post : string) : String.prefix n (n +:+ post) = true.
Proof.
  induction n as [|a n IH]; simpl.
  - by destruct post.
  - destruct (Ascii.ascii_dec a a); [exact IH | congruence].
Qed.

Lemma prefix_inv (n h : string) :
  String.prefix n h = true -> exists post, h = n +:+ post.
Proof.
  revert h. induction n as [|a n IH]; intros h Hp.
  - by exists h.
  - destruct h as [|b h]; simpl in Hp; [discriminate|].
    destruct (Ascii.ascii_dec a b) as [->|]; [|discriminate].
    destruct (IH h Hp) as [post ->]. by exists post.
Qed.

Lemma str_contains_unfold (n h : string) :
  str_contains n h =
  String.prefix n h || match h with
                       | EmptyString => false
                       | String _ rest => str_contains n rest
                       end.
Proof. by destruct h. Qed.

Lemma str_contains_occurs (n h : string) :
  str_contains n h = true <-> occurs_in n h.
Proof.
  split.
  - induction h as [|a h IH]; rewrite str_contains_unfold; intros H;
      apply orb_true_iff in H as [H|H].
    + destruct (prefix_inv _ _ H) as [post E]. by exists EmptyString, post.
    + discriminate.
    + destruct (prefix_inv _ _ H) as [post E]. by exists EmptyString, post.
    + destruct (IH H) as (pre & post & ->). by exists (String a pre), post.
  - intros (pre & post & ->). induction pre as [|a pre IH].
    + change (EmptyString +:+ n +:+ post) with (n +:+ post).
      rewrite str_contains_unfold. by rewrite prefix_app.
    + change (String a pre +:+ n +:+ post) with (String a (pre +:+ n +:+ post)).
      rewrite str_contains_unfold, IH. apply orb_true_r.
Qed.

Lemma str_contains_not_occurs (n h : string) :
  str_contains n h = false <-> ~ occurs_in n h.
Proof.
  rewrite <- str_contains_occurs. by destruct (str_contains n h).
Qed.

Lemma py_index_lookup {A} (l : list A) (i : nat) (x : A) :
  l !! i = Some x -> py_index l (Z.of_nat i) = Ok x.
Proof.
  intros H. pose proof (lookup_lt_Some _ _ _ H) as Hlt.
  unfold py_index.
  destruct (Z.ltb_spec (Z.of_nat i) 0) as [?|_]; [lia|].
  destruct (Z.ltb_spec (Z.of_nat i) 0) as [?|_]; [lia|].
  destruct (Z.leb_spec (Z.of_nat (length l)) (Z.of_nat i)) as [?|_]; [lia|].
  simpl. by rewrite Nat2Z.id, H.
Qed.

Lemma py_index_last {A} (l : list A) (x : A) :
  last l = Some x -> py_index l (-1) = Ok x.
Proof.
  intros H. rewrite last_lookup in H.
  pose proof (lookup_lt_Some _ _ _ H) as Hlt.
  unfold py_index. change (-1 <? 0) with true. cbv iota.
  destruct (Z.ltb_spec (-1 + Z.of_nat (length l)) 0) as [?|_]; [lia|].
  destruct (Z.leb_spec (Z.of_nat (length l)) (-1 + Z.of_nat (length l))) as [?|_]; [lia|].
  simpl. replace (Z.to_nat (-1 + Z.of_nat (length l))) with (pred (length l)) by lia.
  by rewrite H.
Qed.

Lemma py_index_empty {A} (i : Z) : py_index (@nil A) i = Err IndexError.
Proof.
  unfold py_index. destruct (_ || _); [reflexivity|]. by rewrite lookup_nil.
Qed.

(** ** [pcaslorasl] *)

Lemma pcaslorasl_str (metadata : gmap string pyval) (s : string) :
  metadata !! "LabelingType" = Some (VStr s) ->
  pcaslorasl metadata =
  if str_contains "CASL" s then Ok true
  else if str_contains "PASL" s then Ok false
  else Err (UnboundLocalError "pcasl").
Proof.
  intros H. unfold pcaslorasl, dict_getitem. rewrite H. simpl.
  destruct (str_contains "CASL" s); [reflexivity|].
  simpl. by destruct (str_contains "PASL" s).
Qed.

Lemma pcaslorasl_missing (metadata : gmap string pyval) :
  metadata !! "LabelingType" = None ->
  pcaslorasl metadata = Err (KeyError "LabelingType").
Proof. intros H. unfold pcaslorasl, dict_getitem. by rewrite H. Qed.

(** C2 (amended): for metadata whose LabelingType is a string, [pcaslorasl]
    returns true when the string contains "CASL", false when it contains
    "PASL" and not "CASL", and for every other string it returns no flag:
    the call raises. *)
Theorem pcaslorasl_resolution (metadata : gmap string pyval) (s : string) :
  metadata !! "LabelingType" = Some (VStr s) ->
  (occurs_in "CASL" s -> pcaslorasl metadata = Ok true) /\
  (occurs_in "PASL" s -> ~ occurs_in "CASL" s -> pcaslorasl metadata = Ok false) /\
  (~ occurs_in "CASL" s -> ~ occurs_in "PASL" s -> raises (pcaslorasl metadata)).
Proof.
  intros H. rewrite (pcaslorasl_str metadata s H).
  split; [|split].
  - intros Hc. apply str_contains_occurs in Hc. by rewrite Hc.
  - intros Hp Hc. apply str_contains_occurs in Hp.
    apply str_contains_not_occurs in Hc. by rewrite Hc, Hp.
  - intros Hc Hp. apply str_contains_not_occurs in Hc.
    apply str_contains_not_occurs in Hp. rewrite Hc, Hp.
    eexists. reflexivity.
Qed.

Lemma pcaslorasl_resolution_witness :
  (occurs_in "CASL" "PCASL" -> pcaslorasl (<["LabelingType" := VStr "PCASL"]> ∅) = Ok true) /\
  (occurs_in "PASL" "PCASL" -> ~ occurs_in "CASL" "PCASL" ->
   pcaslorasl (<["LabelingType" := VStr "PCASL"]> ∅) = Ok false) /\
  (~ occurs_in "CASL" "PCASL" -> ~ occurs_in "PASL" "PCASL" ->
   raises (pcaslorasl (<["LabelingType" := VStr "PCASL"]> ∅))).
Proof.
  apply (pcaslorasl_resolution (<["LabelingType" := VStr "PCASL"]> ∅) "PCASL").
  vm_compute. reflexivity.
Defined.

(** C2, as stated, fails: on the labeling type "VSASL", which contains neither
    marker, the exception raised is not an UnrecognizedLabelingTypeError. *)
Lemma pcaslorasl_unrecognized_counterexample :
  ~ occurs_in "CASL" "VSASL" /\ ~ occurs_in "PASL" "VSASL" /\
  pcaslorasl (<["LabelingType" := VStr "VSASL"]> ∅) = Err (UnboundLocalError "pcasl") /\
  ~ (exists e, pcaslorasl (<["LabelingType" := VStr "VSASL"]> ∅) = Err e /\
               exn_class e = "UnrecognizedLabelingTypeError").
Proof.
  split; [|split; [|split]].
  - apply str_contains_not_occurs. reflexivity.
  - apply str_contains_not_occurs. reflexivity.
  - reflexivity.
  - intros (e & He & Hc).
    assert (e = UnboundLocalError "pcasl") as -> by (vm_compute in He; congruence).
    discriminate Hc.
Qed.

(** ** What a port receives: the two shapes that occur *)

Lemma out_value_inputnode (k : nat) (wf : Workflow) (inputs : gmap string pyval)
    (field : string) (fields : list string) :
  find_node wf "inputnode" = Some (pe_Node (niu_IdentityInterface fields) "inputnode") ->
  member fields field = true ->
  find_edge wf "inputnode" field = None ->
  out_value (S k) wf inputs "inputnode" field = Ok (inputs !! field).
Proof.
  intros Hn Hf He. simpl. rewrite Hn. simpl.
  unfold member in Hf. rewrite Hf, He. reflexivity.
Qed.

(** A port fed straight from a field of the input node receives the value set
    on that field, through the function of the connection if there is one. *)
Lemma in_value_of_input (wf : Workflow) (inputs : gmap string pyval)
    (n port : string) (e : Edge) (fields : list string) :
  find_edge wf n port = Some e ->
  e_src e = "inputnode" ->
  find_node wf "inputnode" = Some (pe_Node (niu_IdentityInterface fields) "inputnode") ->
  member fields (e_out e) = true ->
  find_edge wf "inputnode" (e_out e) = None ->
  in_value wf inputs n port = apply_fn (e_fn e) (inputs !! e_out e).
Proof.
  intros He Hs Hn Hf Hi. unfold in_value. rewrite He, Hs.
  by rewrite (out_value_inputnode _ wf inputs (e_out e) fields).
Qed.

(** A port fed from a two-input [Merge] whose inputs come straight from two
    fields of the input node receives the two values, [in1] first. *)
Lemma in_value_of_merge2 (wf : Workflow) (inputs : gmap string pyval)
    (n port : string) (e e1 e2 : Edge) (fields : list string) :
  find_edge wf n port = Some e ->
  e_out e = "out" ->
  find_node wf (e_src e) = Some (pe_Node (niu_Merge 2) (e_src e)) ->
  find_edge wf (e_src e) "in1" = Some e1 ->
  find_edge wf (e_src e) "in2" = Some e2 ->
  e_src e1 = "inputnode" -> e_src e2 = "inputnode" ->
  e_fn e1 = None -> e_fn e2 = None ->
  find_node wf "inputnode" = Some (pe_Node (niu_IdentityInterface fields) "inputnode") ->
  member fields (e_out e1) = true -> member fields (e_out e2) = true ->
  find_edge wf "inputnode" (e_out e1) = None ->
  find_edge wf "inputnode" (e_out e2) = None ->
  in_value wf inputs n port =
  apply_fn (e_fn e) (Some (VList (merge_values [inputs !! e_out e1; inputs !! e_out e2]))).
Proof.
  intros He Ho Hm H1 H2 Hs1 Hs2 Hf1 Hf2 Hn Hm1 Hm2 Hi1 Hi2.
  unfold in_value. rewrite He, Ho.
  assert (exists k', length (wf_nodes wf) = S k') as [k' ->].
  { pose proof Hn as Hn'. unfold find_node in Hn'.
    destruct (wf_nodes wf); [discriminate Hn'|eauto]. }
  cbn [out_value]. rewrite Hm. cbn [node_interface].
  change (String.eqb "out" "out") with true. cbv iota.
  change (merge_ports 2) with ["in1"; "in2"].
  cbn [result_map]. rewrite H1, H2, Hs1, Hs2, Hf1, Hf2.
  rewrite Hn. cbn [node_interface]. unfold member in Hm1, Hm2.
  rewrite Hm1, Hm2, Hi1, Hi2. reflexivity.
Qed.

(** ** The tissue-map selectors *)

Lemma getitem_position (files : list pyval) (i : nat) (x : pyval) :
  files !! i = Some x -> getitem (VList files) (Z.of_nat i) = Ok x.
Proof. apply py_index_lookup. Qed.

Lemma getitem_last (files : list pyval) (x : pyval) :
  last files = Some x -> getitem (VList files) (-1) = Ok x.
Proof. apply py_index_last. Qed.

Lemma three_positions (files : list pyval) :
  (3 <= length files)%nat ->
  exists gm wm csf,
    files !! 0%nat = Some gm /\ files !! 1%nat = Some wm /\ last files = Some csf.
Proof.
  intros Hlen. destruct files as [|gm [|wm rest]]; simpl in Hlen; try lia.
  destruct (last (gm :: wm :: rest)) as [csf|] eqn:E.
  - by exists gm, wm, csf.
  - apply last_None in E. discriminate.
Qed.

(** C1: in both workflows that take the tissue-probability maps, the field
    [t1w_tpms] of the input node is consumed at three places only, the
    [input_image] ports of [csf_tfm], [wm_tfm] and [gm_tfm]; for every
    collection of at least three maps the function on the connection hands
    the element at position 0 to [gm_tfm], the element at position 1 to
    [wm_tfm] and the last element to [csf_tfm]. *)
Theorem tissue_selectors_index_convention (wf : Workflow) (inputs : gmap string pyval)
    (files : list pyval) :
  takes_tpms wf ->
  (3 <= length files)%nat ->
  inputs !! "t1w_tpms" = Some (VList files) ->
  List.filter (from_port "inputnode" "t1w_tpms") (wiring wf) =
    [("inputnode", "t1w_tpms", "csf_tfm", "input_image");
     ("inputnode", "t1w_tpms", "wm_tfm", "input_image");
     ("inputnode", "t1w_tpms", "gm_tfm", "input_image")] /\
  exists gm wm csf,
    files !! 0%nat = Some gm /\ files !! 1%nat = Some wm /\ last files = Some csf /\
    CbfCompt._pick_gm (VList files) = Ok gm /\ CbfQc._pick_gm (VList files) = Ok gm /\
    CbfCompt._pick_wm (VList files) = Ok wm /\ CbfQc._pick_wm (VList files) = Ok wm /\
    CbfCompt._pick_csf (VList files) = Ok csf /\ CbfQc._pick_csf (VList files) = Ok csf /\
    in_value wf inputs "gm_tfm" "input_image" = Ok (Some gm) /\
    in_value wf inputs "wm_tfm" "input_image" = Ok (Some wm) /\
    in_value wf inputs "csf_tfm" "input_image" = Ok (Some csf).
Proof.
  intros Hwf Hlen Hin.
  destruct (three_positions files Hlen) as (gm & wm & csf & Hgm & Hwm & Hcsf).
  assert (CbfCompt._pick_gm (VList files) = Ok gm) as Ggm
    by exact (getitem_position files 0 gm Hgm).
  assert (CbfCompt._pick_wm (VList files) = Ok wm) as Gwm
    by exact (getitem_position files 1 wm Hwm).
  assert (CbfCompt._pick_csf (VList files) = Ok csf) as Gcsf
    by exact (getitem_last files csf Hcsf).
  assert (CbfQc._pick_gm (VList files) = Ok gm) as Qgm by exact Ggm.
  assert (CbfQc._pick_wm (VList files) = Ok wm) as Qwm by exact Gwm.
  assert (CbfQc._pick_csf (VList files) = Ok csf) as Qcsf by exact Gcsf.
  assert (forall n e fields,
            find_edge wf n "input_image" = Some e ->
            e_src e = "inputnode" -> e_out e = "t1w_tpms" ->
            find_node wf "inputnode" =
              Some (pe_Node (niu_IdentityInterface fields) "inputnode") ->
            member fields (e_out e) = true ->
            find_edge wf "inputnode" (e_out e) = None ->
            in_value wf inputs n "input_image" = apply_fn (e_fn e) (Some (VList files)))
    as Hrecv.
  { intros n e fields He Hs Ho Hn Hm Hi.
    rewrite (in_value_of_input wf inputs n "input_image" e fields He Hs Hn Hm Hi).
    by rewrite Ho, Hin. }
  split; [destruct Hwf as [? ? ? ? ? ? ? H|? ? ? ? ? ? H];
          [from_cbf_compt H|from_cbfqc_compt H]; by_graph H|].
  exists gm, wm, csf. repeat (split; [assumption|]).
  destruct Hwf as [? ? ? ? ? ? ? H|? ? ? ? ? ? H].
  - from_cbf_compt H. split; [|split].
    + erewrite (Hrecv "gm_tfm" (mkEdge "inputnode" "t1w_tpms" (Some CbfCompt._pick_gm)
                                       "gm_tfm" "input_image")); [|by_graph H..].
      cbn [apply_fn e_fn]. by rewrite Ggm.
    + erewrite (Hrecv "wm_tfm" (mkEdge "inputnode" "t1w_tpms" (Some CbfCompt._pick_wm)
                                       "wm_tfm" "input_image")); [|by_graph H..].
      cbn [apply_fn e_fn]. by rewrite Gwm.
    + erewrite (Hrecv "csf_tfm" (mkEdge "inputnode" "t1w_tpms" (Some CbfCompt._pick_csf)
                                        "csf_tfm" "input_image")); [|by_graph H..].
      cbn [apply_fn e_fn]. by rewrite Gcsf.
  - from_cbfqc_compt H. split; [|split].
    + erewrite (Hrecv "gm_tfm" (mkEdge "inputnode" "t1w_tpms" (Some CbfQc._pick_gm)
                                       "gm_tfm" "input_image")); [|by_graph H..].
      cbn [apply_fn e_fn]. by rewrite Qgm.
    + erewrite (Hrecv "wm_tfm" (mkEdge "inputnode" "t1w_tpms" (Some CbfQc._pick_wm)
                                       "wm_tfm" "input_image")); [|by_graph H..].
      cbn [apply_fn e_fn]. by rewrite Qwm.
    + erewrite (Hrecv "csf_tfm" (mkEdge "inputnode" "t1w_tpms" (Some CbfQc._pick_csf)
                                        "csf_tfm" "input_image")); [|by_graph H..].
      cbn [apply_fn e_fn]. by rewrite Qcsf.
Qed.

Lemma tissue_selectors_index_convention_witness :
  exists wf files, sample_cbf_compt_wf = Ok wf /\
    sample_inputs !! "t1w_tpms" = Some (VList files) /\
    List.filter (from_port "inputnode" "t1w_tpms") (wiring wf) =
      [("inputnode", "t1w_tpms", "csf_tfm", "input_image");
       ("inputnode", "t1w_tpms", "wm_tfm", "input_image");
       ("inputnode", "t1w_tpms", "gm_tfm", "input_image")] /\
    exists gm wm csf,
      files !! 0%nat = Some gm /\ files !! 1%nat = Some wm /\ last files = Some csf /\
      CbfCompt._pick_gm (VList files) = Ok gm /\ CbfQc._pick_gm (VList files) = Ok gm /\
      CbfCompt._pick_wm (VList files) = Ok wm /\ CbfQc._pick_wm (VList files) = Ok wm /\
      CbfCompt._pick_csf (VList files) = Ok csf /\ CbfQc._pick_csf (VList files) = Ok csf /\
      in_value wf sample_inputs "gm_tfm" "input_image" = Ok (Some gm) /\
      in_value wf sample_inputs "wm_tfm" "input_image" = Ok (Some wm) /\
      in_value wf sample_inputs "csf_tfm" "input_image" = Ok (Some csf).
Proof.
  eexists. eexists. split; [vm_compute; reflexivity|].
  split; [vm_compute; reflexivity|].
  apply tissue_selectors_index_convention.
  - apply (tpms_cbf_compt _ np_add_scalars (VFloat 0.1) sample_metadata (VInt 0) (VInt 1)
                          (VInt 5) "cbf_compt_wf").
    vm_compute. reflexivity.
  - simpl. lia.
  - vm_compute. reflexivity.
Defined.

(** ** The standard-space mask of the QC workflow *)

(** C10: in the QC workflow the field [bold_mask_std] of the input node is
    consumed at two places, the [in_boldmaskstd] port of the QC node and the
    [master] port of the node that resamples the template brain mask; when
    the value set on the field is a collection, both receive its last
    element. *)
Theorem qc_std_mask_last_element (get_template : string -> kwargs -> string)
    (mem_gb bold_file : pyval) (metadata : gmap string pyval) (omp_nthreads : pyval)
    (name : string) (wf : Workflow) (inputs : gmap string pyval)
    (masks : list pyval) (m : pyval) :
  init_cbfqc_compt_wf get_template mem_gb bold_file metadata omp_nthreads name = Ok wf ->
  inputs !! "bold_mask_std" = Some (VList masks) ->
  last masks = Some m ->
  List.filter (from_port "inputnode" "bold_mask_std") (wiring wf) =
    [("inputnode", "bold_mask_std", "qccompute", "in_boldmaskstd");
     ("inputnode", "bold_mask_std", "resample", "master")] /\
  in_value wf inputs "qccompute" "in_boldmaskstd" = Ok (Some m) /\
  in_value wf inputs "resample" "master" = Ok (Some m).
Proof.
  intros H Hin Hlast. from_cbfqc_compt H.
  assert (CbfQc._pick_csf (VList masks) = Ok m) as Hpick
    by exact (getitem_last masks m Hlast).
  split; [by_graph H|]. split.
  - erewrite (in_value_of_input wf inputs "qccompute" "in_boldmaskstd"
                (mkEdge "inputnode" "bold_mask_std" (Some CbfQc._pick_csf)
                        "qccompute" "in_boldmaskstd")); [|by_graph H..].
    cbn [apply_fn e_fn e_out]. by rewrite Hin, Hpick.
  - erewrite (in_value_of_input wf inputs "resample" "master"
                (mkEdge "inputnode" "bold_mask_std" (Some CbfQc._pick_csf)
                        "resample" "master")); [|by_graph H..].
    cbn [apply_fn e_fn e_out]. by rewrite Hin, Hpick.
Qed.

Lemma qc_std_mask_last_element_witness :
  exists wf, sample_cbfqc_compt_wf = Ok wf /\
    in_value wf sample_inputs "qccompute" "in_boldmaskstd" =
      Ok (Some (VStr "space-MNI152NLin2009cAsym_desc-brain_mask.nii.gz")) /\
    in_value wf sample_inputs "resample" "master" =
      Ok (Some (VStr "space-MNI152NLin2009cAsym_desc-brain_mask.nii.gz")).
Proof.
  eexists. split; [vm_compute; reflexivity|].
  eapply (qc_std_mask_last_element sample_template (VFloat 0.1)
            (VStr "/data/sub-01/perf/sub-01_asl.nii.gz") sample_metadata (VInt 1)
            "cbfqc_compt_wf" _ sample_inputs
            [VStr "space-MNI152NLin6Asym_desc-brain_mask.nii.gz";
             VStr "space-MNI152NLin2009cAsym_desc-brain_mask.nii.gz"]).
  - vm_compute. reflexivity.
  - vm_compute. reflexivity.
  - reflexivity.
Defined.

(** ** The transform chain *)

Lemma apply_chain_two {image : Type} (mapping : pyval -> image -> image)
    (first_listed second_listed : pyval) (img : image) :
  apply_chain mapping [first_listed; second_listed] img =
  mapping first_listed (mapping second_listed img).
Proof. reflexivity. Qed.

(** The shape of both workflows: [transforms] is fed from [mrg_xfms], whose
    inputs are the two transform fields of the input node. *)
Lemma in_value_transforms (wf : Workflow) (inputs : gmap string pyval)
    (n : string) (fields : list string) :
  find_edge wf n "transforms" = Some (mkEdge "mrg_xfms" "out" None n "transforms") ->
  find_node wf "mrg_xfms" = Some (pe_Node (niu_Merge 2) "mrg_xfms") ->
  find_edge wf "mrg_xfms" "in1" =
    Some (mkEdge "inputnode" "t1_bold_xform" None "mrg_xfms" "in1") ->
  find_edge wf "mrg_xfms" "in2" =
    Some (mkEdge "inputnode" "std2anat_xfm" None "mrg_xfms" "in2") ->
  find_node wf "inputnode" = Some (pe_Node (niu_IdentityInterface fields) "inputnode") ->
  member fields "t1_bold_xform" = true ->
  member fields "std2anat_xfm" = true ->
  find_edge wf "inputnode" "t1_bold_xform" = None ->
  find_edge wf "inputnode" "std2anat_xfm" = None ->
  in_value wf inputs n "transforms" =
    Ok (Some (VList (merge_values [inputs !! "t1_bold_xform"; inputs !! "std2anat_xfm"]))).
Proof.
  intros He Hm H1 H2 Hn Hf1 Hf2 Hi1 Hi2.
  by rewrite (in_value_of_merge2 wf inputs n "transforms" _ _ _ fields He eq_refl Hm H1 H2
                eq_refl eq_refl eq_refl eq_refl Hn Hf1 Hf2 Hi1 Hi2).
Qed.

Lemma merge_values_two (x y : pyval) :
  (forall l, x <> VList l) -> (forall l, y <> VList l) ->
  merge_values [Some x; Some y] = [x; y].
Proof.
  intros Hx Hy. unfold merge_values. simpl.
  destruct x; try (by destruct (Hx l)); destruct y; try (by destruct (Hy l)); reflexivity.
Qed.

(** C8: in the plotting and the ROI-quantification workflow every
    [ApplyTransforms] node receives on its [transforms] port the two-element
    list made of the value of [t1_bold_xform] (anatomical to functional)
    followed by the value of [std2anat_xfm] (standard to anatomical), each a
    single transform; applied first-listed-last, the chain maps an image
    through the standard to anatomical transform first and the anatomical to
    functional one second. *)
Theorem transform_chain_order (wf : Workflow) (inputs : gmap string pyval)
    (anat2func std2anat : pyval) :
  projects_template wf ->
  inputs !! "t1_bold_xform" = Some anat2func ->
  inputs !! "std2anat_xfm" = Some std2anat ->
  (forall l, anat2func <> VList l) ->
  (forall l, std2anat <> VList l) ->
  (exists n, n ∈ wf_nodes wf /\ is_ApplyTransforms n = true) /\
  (forall n, n ∈ wf_nodes wf -> is_ApplyTransforms n = true ->
     in_value wf inputs (node_name n) "transforms" =
       Ok (Some (VList [anat2func; std2anat]))) /\
  (forall (image : Type) (mapping : pyval -> image -> image) (img : image),
     apply_chain mapping [anat2func; std2anat] img =
       mapping anat2func (mapping std2anat img)).
Proof.
  intros Hwf Hx Hy Nx Ny.
  pose proof (merge_values_two anat2func std2anat Nx Ny) as Hmerge.
  split; [|split; [|intros; apply apply_chain_two]].
  - destruct Hwf as [? ? ? ? ? H|get_atlas ? ? ? H].
    + from_cbfplot H. rewrite <- H. eexists. split.
      * cbn [wf_nodes]. do 2 apply list_elem_of_further. apply list_elem_of_here.
      * reflexivity.
    + from_cbfroiquant get_atlas H. rewrite <- H. eexists. split.
      * cbn [wf_nodes]. do 2 apply list_elem_of_further. apply list_elem_of_here.
      * reflexivity.
  - intros n Hn Happ.
    destruct Hwf as [? ? ? ? ? H|get_atlas ? ? ? H].
    + from_cbfplot H. rewrite <- H in Hn. cbn [wf_nodes] in Hn.
      apply list_elem_of_In in Hn. simpl in Hn.
      repeat (destruct Hn as [<-|Hn]; [try discriminate Happ|]); [|contradiction].
      cbn [node_name]. erewrite in_value_transforms; [|by_graph H..].
      by rewrite Hx, Hy, Hmerge.
    + from_cbfroiquant get_atlas H. rewrite <- H in Hn. cbn [wf_nodes] in Hn.
      apply list_elem_of_In in Hn. simpl in Hn.
      repeat (destruct Hn as [<-|Hn]; [try discriminate Happ|]); [..|contradiction];
        cbn [node_name]; (erewrite in_value_transforms; [|by_graph H..]);
        by rewrite Hx, Hy, Hmerge.
Qed.

Lemma transform_chain_order_witness :
  exists wf, sample_cbfroiquant_wf = Ok wf /\
  (exists n, n ∈ wf_nodes wf /\ is_ApplyTransforms n = true) /\
  (forall n, n ∈ wf_nodes wf -> is_ApplyTransforms n = true ->
     in_value wf sample_inputs (node_name n) "transforms" =
       Ok (Some (VList [VStr "from-T1w_to-scanner_xfm.txt";
                        VStr "from-MNI152NLin2009cAsym_to-T1w_xfm.h5"]))) /\
  (forall (image : Type) (mapping : pyval -> image -> image) (img : image),
     apply_chain mapping [VStr "from-T1w_to-scanner_xfm.txt";
                          VStr "from-MNI152NLin2009cAsym_to-T1w_xfm.h5"] img =
       mapping (VStr "from-T1w_to-scanner_xfm.txt")
               (mapping (VStr "from-MNI152NLin2009cAsym_to-T1w_xfm.h5") img)).
Proof.
  eexists. split; [vm_compute; reflexivity|].
  apply transform_chain_order.
  - apply (proj_cbfroiquant _ sample_atlas (VFloat 0.1) (VInt 1) "cbf_roiquant").
    vm_compute. reflexivity.
  - vm_compute. reflexivity.
  - vm_compute. reflexivity.
  - discriminate.
  - discriminate.
Defined.

(** ** The CBF-computation workflow: masks and estimators *)

(** C5: in the CBF-computation workflow the mask-refinement node has one
    output in use, [out_mask], and it is the only writer of the mask port of
    each estimator ([computecbf], [scorescrub], [basilcbf]) and of the
    extraction node; the raw functional mask [bold_mask] of the input node
    goes to the refinement node and to the three tissue projections as their
    reference, to no estimator. *)
Theorem refined_mask_feeds_estimators (np_add : pyval -> pyval -> result pyval)
    (mem_gb : pyval) (metadata : gmap string pyval)
    (dummy_vols omp_nthreads smooth_kernel : pyval) (name : string) (wf : Workflow) :
  init_cbf_compt_wf np_add mem_gb metadata dummy_vols omp_nthreads smooth_kernel name = Ok wf ->
  List.filter (from_node "refinemask") (wiring wf) =
    [("refinemask", "out_mask", "computecbf", "in_mask");
     ("refinemask", "out_mask", "scorescrub", "in_mask");
     ("refinemask", "out_mask", "basilcbf", "mask");
     ("refinemask", "out_mask", "extractcbf", "in_mask")] /\
  List.filter (into_port "computecbf" "in_mask") (wiring wf) =
    [("refinemask", "out_mask", "computecbf", "in_mask")] /\
  List.filter (into_port "scorescrub" "in_mask") (wiring wf) =
    [("refinemask", "out_mask", "scorescrub", "in_mask")] /\
  List.filter (into_port "basilcbf" "mask") (wiring wf) =
    [("refinemask", "out_mask", "basilcbf", "mask")] /\
  List.filter (into_port "extractcbf" "in_mask") (wiring wf) =
    [("refinemask", "out_mask", "extractcbf", "in_mask")] /\
  (forall e, e ∈ wf_edges wf -> e_src e = "refinemask" -> e_fn e = None) /\
  List.filter (from_port "inputnode" "bold_mask") (wiring wf) =
    [("inputnode", "bold_mask", "refinemask", "in_boldmask");
     ("inputnode", "bold_mask", "csf_tfm", "reference_image");
     ("inputnode", "bold_mask", "wm_tfm", "reference_image");
     ("inputnode", "bold_mask", "gm_tfm", "reference_image")].
Proof.
  intros H. from_cbf_compt H.
  repeat (split; [by_graph H|]).
  split; [|by_graph H].
  intros e He Hsrc. rewrite <- H in He. cbn [wf_edges] in He.
  apply list_elem_of_In in He. simpl in He.
  repeat (destruct He as [<-|He]; [first [discriminate Hsrc | reflexivity]|]).
  contradiction.
Qed.

Lemma refined_mask_feeds_estimators_witness :
  exists wf, sample_cbf_compt_wf = Ok wf /\
  List.filter (from_node "refinemask") (wiring wf) =
    [("refinemask", "out_mask", "computecbf", "in_mask");
     ("refinemask", "out_mask", "scorescrub", "in_mask");
     ("refinemask", "out_mask", "basilcbf", "mask");
     ("refinemask", "out_mask", "extractcbf", "in_mask")].
Proof.
  eexists. split; [vm_compute; reflexivity|].
  apply (refined_mask_feeds_estimators np_add_scalars (VFloat 0.1) sample_metadata
           (VInt 0) (VInt 1) (VInt 5) "cbf_compt_wf").
  vm_compute. reflexivity.
Defined.

(** C3, as stated, fails: the outlier-robust node reads the per-frame CBF
    series of the basic estimator. *)
Lemma estimators_independent_counterexample :
  exists wf, sample_cbf_compt_wf = Ok wf /\ ~ estimators_independent wf.
Proof.
  eexists. split; [vm_compute; reflexivity|].
  intros Hind.
  apply (Hind (mkEdge "computecbf" "out_cbf" None "scorescrub" "in_file")).
  - apply list_elem_of_In. cbn [wf_edges]. simpl. tauto.
  - cbn [e_src e_dst]. unfold estimators. split.
    + apply list_elem_of_here.
    + apply list_elem_of_further, list_elem_of_here.
Qed.

(** C3 (amended): among the three estimator nodes there is one connection
    only, from the [out_cbf] port of the basic estimator to the [in_file]
    port of the outlier-robust one; the Bayesian estimator neither reads from
    nor feeds another estimator, and nothing feeds back into the basic one. *)
Theorem estimators_single_dependency (np_add : pyval -> pyval -> result pyval)
    (mem_gb : pyval) (metadata : gmap string pyval)
    (dummy_vols omp_nthreads smooth_kernel : pyval) (name : string) (wf : Workflow) :
  init_cbf_compt_wf np_add mem_gb metadata dummy_vols omp_nthreads smooth_kernel name = Ok wf ->
  List.filter (between estimators) (wiring wf) =
    [("computecbf", "out_cbf", "scorescrub", "in_file")].
Proof. intros H. from_cbf_compt H. by_graph H. Qed.

Lemma estimators_single_dependency_witness :
  exists wf, sample_cbf_compt_wf = Ok wf /\
  List.filter (between estimators) (wiring wf) =
    [("computecbf", "out_cbf", "scorescrub", "in_file")].
Proof.
  eexists. split; [vm_compute; reflexivity|].
  eapply (estimators_single_dependency np_add_scalars (VFloat 0.1) sample_metadata
            (VInt 0) (VInt 1) (VInt 5) "cbf_compt_wf").
  vm_compute. reflexivity.
Defined.

(** ** The CBF-computation workflow: metadata *)

Lemma dict_getitem_missing (d : gmap string pyval) (key : string) (v : pyval) :
  d !! key = None -> dict_getitem d key = Ok v -> False.
Proof. unfold dict_getitem. by intros ->. Qed.

(** C4: when the metadata lacks any one of M0, PostLabelingDelay,
    RepetitionTime, LabelingDuration or LabelingType, the constructor of the
    CBF-computation workflow raises and returns no workflow. *)
Theorem missing_metadata_fails_construction (np_add : pyval -> pyval -> result pyval)
    (mem_gb : pyval) (metadata : gmap string pyval)
    (dummy_vols omp_nthreads smooth_kernel : pyval) (name key : string) :
  key ∈ ["M0"; "PostLabelingDelay"; "RepetitionTime"; "LabelingDuration"; "LabelingType"] ->
  metadata !! key = None ->
  raises (init_cbf_compt_wf np_add mem_gb metadata dummy_vols omp_nthreads smooth_kernel name).
Proof.
  intros Hkey Hnone. unfold raises, init_cbf_compt_wf. cbv zeta.
  destruct (dict_getitem metadata "M0") as [m0|] eqn:E0; [|cbn; eauto].
  destruct (dict_getitem metadata "PostLabelingDelay") as [pld|] eqn:E1; [|cbn; eauto].
  destruct (dict_getitem metadata "RepetitionTime") as [tr|] eqn:E2; [|cbn; eauto].
  destruct (dict_getitem metadata "LabelingDuration") as [ld|] eqn:E3; [|cbn; eauto].
  cbn [mbind result_bind].
  destruct (np_add pld ld) as [tis|] eqn:E4; [|cbn; eauto].
  destruct (pcaslorasl metadata) as [pcasl|] eqn:E5; [|cbn; eauto].
  exfalso.
  apply list_elem_of_In in Hkey. simpl in Hkey.
  destruct Hkey as [<-|[<-|[<-|[<-|[<-|[]]]]]];
    eauto using dict_getitem_missing.
  rewrite (pcaslorasl_missing metadata Hnone) in E5. discriminate.
Qed.

Lemma missing_metadata_fails_construction_witness :
  raises (init_cbf_compt_wf np_add_scalars (VFloat 0.1) sample_metadata_no_labeling
            (VInt 0) (VInt 1) (VInt 5) "cbf_compt_wf").
Proof.
  apply (missing_metadata_fails_construction _ _ _ _ _ _ _ "LabelingType").
  - do 4 apply list_elem_of_further. apply list_elem_of_here.
  - vm_compute. reflexivity.
Defined.

(** The exception is the [KeyError] of the first missing field, in the order
    in which the arguments of [BASILCBF] are evaluated. *)
Lemma missing_M0_KeyError (np_add : pyval -> pyval -> result pyval)
    (mem_gb : pyval) (metadata : gmap string pyval)
    (dummy_vols omp_nthreads smooth_kernel : pyval) (name : string) :
  metadata !! "M0" = None ->
  init_cbf_compt_wf np_add mem_gb metadata dummy_vols omp_nthreads smooth_kernel name =
    Err (KeyError "M0").
Proof.
  intros H. unfold init_cbf_compt_wf, dict_getitem. cbv zeta. by rewrite H.
Qed.




(** ** The ROI-quantification workflow *)

(** C7: the ROI-quantification workflow has five [ApplyTransforms] nodes,
    one per atlas, each with the file of its atlas as input image; it has 25
    region-reduction nodes, each reading its [atlasfile] from the
    [output_image] of the resampling node of its atlas and its [in_cbf] from
    one CBF variant of the input node, and writing its table to a field of
    its own of the output node; every resampling node is read by five
    reduction nodes, one per variant, and the output node receives 25 tables
    on 25 different fields. *)
Theorem roi_fan_out (get_atlas : string -> pyval * pyval * pyval)
    (mem_gb omp_nthreads : pyval) (name : string) (wf : Workflow) :
  init_cbfroiquant_wf get_atlas mem_gb omp_nthreads name = Ok wf ->
  map (fun n => (node_name n, node_kwarg n "input_image"))
      (List.filter is_ApplyTransforms (wf_nodes wf)) =
    [
     ("hvoftrans", Some (get_atlas "HarvardOxford").1.1);
     ("sc207trans", Some (get_atlas "schaefer200x7").1.1);
     ("sc217trans", Some (get_atlas "schaefer200x17").1.1);
     ("sc407trans", Some (get_atlas "schaefer400x7").1.1);
     ("sc417trans", Some (get_atlas "schaefer400x17").1.1)] /\
  map (fun n => (node_name n, producer wf (node_name n) "atlasfile",
                 producer wf (node_name n) "in_cbf", readers wf (node_name n)))
      (List.filter is_cbfqroiquant (wf_nodes wf)) =
    [
     ("cbfroihv", Some ("hvoftrans", "output_image"), Some ("inputnode", "cbf"),
      [("atlascsv", "outputnode", "cbf_hvoxf")]);
     ("scorehv", Some ("hvoftrans", "output_image"), Some ("inputnode", "score"),
      [("atlascsv", "outputnode", "score_hvoxf")]);
     ("scrubhv", Some ("hvoftrans", "output_image"), Some ("inputnode", "scrub"),
      [("atlascsv", "outputnode", "scrub_hvoxf")]);
     ("basilhv", Some ("hvoftrans", "output_image"), Some ("inputnode", "basil"),
      [("atlascsv", "outputnode", "basil_hvoxf")]);
     ("pvchv", Some ("hvoftrans", "output_image"), Some ("inputnode", "pvc"),
      [("atlascsv", "outputnode", "pvc_hvoxf")]);
     ("cbf207", Some ("sc207trans", "output_image"), Some ("inputnode", "cbf"),
      [("atlascsv", "outputnode", "cbf_sc207")]);
     ("score207", Some ("sc207trans", "output_image"), Some ("inputnode", "score"),
      [("atlascsv", "outputnode", "score_sc207")]);
     ("scrub207", Some ("sc207trans", "output_image"), Some ("inputnode", "scrub"),
      [("atlascsv", "outputnode", "scrub_sc207")]);
     ("basil207", Some ("sc207trans", "output_image"), Some ("inputnode", "basil"),
      [("atlascsv", "outputnode", "basil_sc207")]);
     ("pvc207", Some ("sc207trans", "output_image"), Some ("inputnode", "pvc"),
      [("atlascsv", "outputnode", "pvc_sc207")]);
     ("cbf217", Some ("sc217trans", "output_image"), Some ("inputnode", "cbf"),
      [("atlascsv", "outputnode", "cbf_sc217")]);
     ("score217", Some ("sc217trans", "output_image"), Some ("inputnode", "score"),
      [("atlascsv", "outputnode", "score_sc217")]);
     ("scrub217", Some ("sc217trans", "output_image"), Some ("inputnode", "scrub"),
      [("atlascsv", "outputnode", "scrub_sc217")]);
     ("basil217", Some ("sc217trans", "output_image"), Some ("inputnode", "basil"),
      [("atlascsv", "outputnode", "basil_sc217")]);
     ("pvc217", Some ("sc217trans", "output_image"), Some ("inputnode", "pvc"),
      [("atlascsv", "outputnode", "pvc_sc217")]);
     ("cbf407", Some ("sc407trans", "output_image"), Some ("inputnode", "cbf"),
      [("atlascsv", "outputnode", "cbf_sc407")]);
     ("score407", Some ("sc407trans", "output_image"), Some ("inputnode", "score"),
      [("atlascsv", "outputnode", "score_sc407")]);
     ("scrub407", Some ("sc407trans", "output_image"), Some ("inputnode", "scrub"),
      [("atlascsv", "outputnode", "scrub_sc407")]);
     ("basil407", Some ("sc407trans", "output_image"), Some ("inputnode", "basil"),
      [("atlascsv", "outputnode", "basil_sc407")]);
     ("pvc407", Some ("sc407trans", "output_image"), Some ("inputnode", "pvc"),
      [("atlascsv", "outputnode", "pvc_sc407")]);
     ("cbf417", Some ("sc417trans", "output_image"), Some ("inputnode", "cbf"),
      [("atlascsv", "outputnode", "cbf_sc417")]);
     ("score417", Some ("sc417trans", "output_image"), Some ("inputnode", "score"),
      [("atlascsv", "outputnode", "score_sc417")]);
     ("scrub417", Some ("sc417trans", "output_image"), Some ("inputnode", "scrub"),
      [("atlascsv", "outputnode", "scrub_sc417")]);
     ("basil417", Some ("sc417trans", "output_image"), Some ("inputnode", "basil"),
      [("atlascsv", "outputnode", "basil_sc417")]);
     ("pvc417", Some ("sc417trans", "output_image"), Some ("inputnode", "pvc"),
      [("atlascsv", "outputnode", "pvc_sc417")])] /\
  length (List.filter is_cbfqroiquant (wf_nodes wf)) = 25%nat /\
  (forall t, t ∈ ["hvoftrans"; "sc207trans"; "sc217trans"; "sc407trans"; "sc417trans"] ->
     map (fun r : string * string * string => (r.1.1, r.2, producer wf r.1.2 "in_cbf"))
         (readers wf t) =
       [("output_image", "atlasfile", Some ("inputnode", "cbf"));
        ("output_image", "atlasfile", Some ("inputnode", "score"));
        ("output_image", "atlasfile", Some ("inputnode", "scrub"));
        ("output_image", "atlasfile", Some ("inputnode", "basil"));
        ("output_image", "atlasfile", Some ("inputnode", "pvc"))]) /\
  length (List.filter (into_node "outputnode") (wiring wf)) = 25%nat /\
  NoDup (map (fun k : string * string * string * string => k.2)
             (List.filter (into_node "outputnode") (wiring wf))).
Proof.
  intros H. from_cbfroiquant get_atlas H.
  split; [by_graph H|]. split; [by_graph H|]. split; [by_graph H|].
  split; [|split; [by_graph H|]].
  - intros t Ht. apply list_elem_of_In in Ht. simpl in Ht.
    destruct Ht as [<-|[<-|[<-|[<-|[<-|[]]]]]]; by_graph H.
  - rewrite <- H. apply (bool_decide_unpack _). vm_compute. reflexivity.
Qed.

Lemma roi_fan_out_witness :
  exists wf, sample_cbfroiquant_wf = Ok wf /\
    length (List.filter is_cbfqroiquant (wf_nodes wf)) = 25%nat /\
    length (List.filter (into_node "outputnode") (wiring wf)) = 25%nat.
Proof.
  eexists. split; [vm_compute; reflexivity|].
  edestruct (roi_fan_out sample_atlas (VFloat 0.1) (VInt 1) "cbf_roiquant")
    as (_ & _ & Hnodes & _ & Htables & _).
  - vm_compute. reflexivity.
  - exact (conj Hnodes Htables).
Defined.

(** ** Acyclicity *)

Lemma forward_feeds (order : list string) (wf : Workflow) (a b : string) :
  forward order wf = true -> feeds wf a b -> (rank_of order a < rank_of order b)%nat.
Proof.
  intros Hf (e & He & <- & <-). unfold forward in Hf.
  rewrite forallb_forall in Hf. apply list_elem_of_In in He.
  apply Nat.ltb_lt. by apply Hf.
Qed.

Lemma forward_reach (order : list string) (wf : Workflow) (a b : string) :
  forward order wf = true -> tc (feeds wf) a b -> (rank_of order a < rank_of order b)%nat.
Proof.
  intros Hf Hreach. induction Hreach as [a b Hab|a b c Hab _ IH].
  - by apply (forward_feeds order wf).
  - pose proof (forward_feeds order wf a b Hf Hab). lia.
Qed.

Lemma forward_acyclic (order : list string) (wf : Workflow) :
  forward order wf = true -> acyclic wf.
Proof.
  intros Hf n Hn. pose proof (forward_reach order wf n n Hf Hn). lia.
Qed.

(** C9: the graph of every workflow returned by one of the four constructors
    is acyclic: following connections from any node never leads back to it. *)
Theorem workflows_acyclic (wf : Workflow) : constructed wf -> acyclic wf.
Proof.
  intros [? ? ? ? ? ? ? H|? ? ? ? ? ? H|? ? ? ? ? H|get_atlas ? ? ? H].
  - from_cbf_compt H.
    apply (forward_acyclic ["inputnode"; "refinemask"; "extractcbf"; "computecbf";
                            "csf_tfm"; "wm_tfm"; "gm_tfm"; "scorescrub"; "basilcbf";
                            "outputnode"]).
    by_graph H.
  - from_cbfqc_compt H.
    apply (forward_acyclic ["inputnode"; "csf_tfm"; "wm_tfm"; "gm_tfm"; "masktonative";
                            "resample"; "qccompute"; "outputnode"]).
    by_graph H.
  - from_cbfplot H.
    apply (forward_acyclic ["inputnode"; "mrg_xfms"; "resample_parc"; "cbf_ts_summary";
                            "cbf_summary"; "score_summary"; "scrub_summary";
                            "basil_summary"; "pvc_summary"; "ds_report_cbftsplot";
                            "ds_report_cbfplot"; "ds_report_scoreplot";
                            "ds_report_scrubplot"; "ds_report_basilplot";
                            "ds_report_pvcplot"; "outputnode"]).
    by_graph H.
  - from_cbfroiquant get_atlas H.
    apply (forward_acyclic (map node_name (wf_nodes wf))).
    by_graph H.
Qed.

Lemma workflows_acyclic_witness :
  (exists wf, sample_cbf_compt_wf = Ok wf /\ acyclic wf) /\
  (exists wf, sample_cbfqc_compt_wf = Ok wf /\ acyclic wf) /\
  (exists wf, sample_cbfplot_wf = Ok wf /\ acyclic wf) /\
  (exists wf, sample_cbfroiquant_wf = Ok wf /\ acyclic wf).
Proof.
  split; [|split; [|split]]; (eexists; split; [vm_compute; reflexivity|]);
    apply workflows_acyclic.
  - apply (by_cbf_compt _ np_add_scalars (VFloat 0.1) sample_metadata (VInt 0) (VInt 1)
                        (VInt 5) "cbf_compt_wf").
    vm_compute. reflexivity.
  - apply (by_cbfqc_compt _ sample_template (VFloat 0.1)
                          (VStr "/data/sub-01/perf/sub-01_asl.nii.gz") sample_metadata
                          (VInt 1) "cbfqc_compt_wf").
    vm_compute. reflexivity.
  - apply (by_cbfplot _ sample_template (VFloat 0.1) sample_metadata (VInt 1) "cbf_plot").
    vm_compute. reflexivity.
  - apply (by_cbfroiquant _ sample_atlas (VFloat 0.1) (VInt 1) "cbf_roiquant").
    vm_compute. reflexivity.
Defined.

(** * Further properties of the constructors *)

(** ** The selectors on short and on unexpected values *)

Lemma py_index_position {A} (l : list A) (i : nat) :
  py_index l (Z.of_nat i) =
  match l !! i with
  | Some x => Ok x
  | None => Err IndexError
  end.
Proof.
  destruct (l !! i) as [x|] eqn:E; [by apply py_index_lookup|].
  apply lookup_ge_None in E. unfold py_index.
  destruct (Z.ltb_spec (Z.of_nat i) 0) as [?|_]; [lia|].
  destruct (Z.ltb_spec (Z.of_nat i) 0) as [?|_]; [lia|].
  destruct (Z.leb_spec (Z.of_nat (length l)) (Z.of_nat i)) as [_|?]; [reflexivity|lia].
Qed.

Lemma py_index_minus_one {A} (l : list A) :
  py_index l (-1) =
  match last l with
  | Some x => Ok x
  | None => Err IndexError
  end.
Proof.
  destruct (last l) as [x|] eqn:E; [by apply py_index_last|].
  apply last_None in E. subst l. apply py_index_empty.
Qed.

(** X2: on a list the three selectors are the lookups at position 0, at
    position 1 and at the last position, and raise IndexError exactly when
    that position does not exist. *)
Theorem selectors_on_lists (files : list pyval) :
  CbfCompt._pick_gm (VList files) =
    match files !! 0%nat with Some x => Ok x | None => Err IndexError end /\
  CbfCompt._pick_wm (VList files) =
    match files !! 1%nat with Some x => Ok x | None => Err IndexError end /\
  CbfCompt._pick_csf (VList files) =
    match last files with Some x => Ok x | None => Err IndexError end /\
  CbfQc._pick_gm (VList files) = CbfCompt._pick_gm (VList files) /\
  CbfQc._pick_wm (VList files) = CbfCompt._pick_wm (VList files) /\
  CbfQc._pick_csf (VList files) = CbfCompt._pick_csf (VList files).
Proof.
  split; [exact (py_index_position files 0)|].
  split; [exact (py_index_position files 1)|].
  split; [exact (py_index_minus_one files)|].
  repeat split.
Qed.

Lemma list_ascii_app (s t : string) :
  String.list_ascii_of_string (s +:+ t) =
  String.list_ascii_of_string s ++ String.list_ascii_of_string t.
Proof. induction s as [|c s IH]; [reflexivity|]. simpl. by rewrite IH. Qed.



(** What the three tissue projections receive, whatever was set on
    [t1w_tpms]. *)
Lemma tpms_received (wf : Workflow) (inputs : gmap string pyval) :
  takes_tpms wf ->
  in_value wf inputs "gm_tfm" "input_image" =
    apply_fn (Some CbfCompt._pick_gm) (inputs !! "t1w_tpms") /\
  in_value wf inputs "wm_tfm" "input_image" =
    apply_fn (Some CbfCompt._pick_wm) (inputs !! "t1w_tpms") /\
  in_value wf inputs "csf_tfm" "input_image" =
    apply_fn (Some CbfCompt._pick_csf) (inputs !! "t1w_tpms").
Proof.
  intros [? ? ? ? ? ? ? H|? ? ? ? ? ? H];
    [from_cbf_compt H|from_cbfqc_compt H];
    (split; [|split]).
  - by erewrite (in_value_of_input wf inputs "gm_tfm" "input_image"
                   (mkEdge "inputnode" "t1w_tpms" (Some CbfCompt._pick_gm)
                           "gm_tfm" "input_image")); [|by_graph H..].
  - by erewrite (in_value_of_input wf inputs "wm_tfm" "input_image"
                   (mkEdge "inputnode" "t1w_tpms" (Some CbfCompt._pick_wm)
                           "wm_tfm" "input_image")); [|by_graph H..].
  - by erewrite (in_value_of_input wf inputs "csf_tfm" "input_image"
                   (mkEdge "inputnode" "t1w_tpms" (Some CbfCompt._pick_csf)
                           "csf_tfm" "input_image")); [|by_graph H..].
  - by erewrite (in_value_of_input wf inputs "gm_tfm" "input_image"
                   (mkEdge "inputnode" "t1w_tpms" (Some CbfQc._pick_gm)
                           "gm_tfm" "input_image")); [|by_graph H..].
  - by erewrite (in_value_of_input wf inputs "wm_tfm" "input_image"
                   (mkEdge "inputnode" "t1w_tpms" (Some CbfQc._pick_wm)
                           "wm_tfm" "input_image")); [|by_graph H..].
  - by erewrite (in_value_of_input wf inputs "csf_tfm" "input_image"
                   (mkEdge "inputnode" "t1w_tpms" (Some CbfQc._pick_csf)
                           "csf_tfm" "input_image")); [|by_graph H..].
Qed.

(** X3: with fewer than three tissue maps the projections overlap or fail:
    given two maps, [csf_tfm] receives the same map as [wm_tfm]; given one,
    [csf_tfm] receives the same map as [gm_tfm] and [wm_tfm] fails with
    IndexError; given an empty list all three fail with IndexError. *)
Theorem tissue_maps_short_collection (wf : Workflow) (inputs : gmap string pyval)
    (files : list pyval) :
  takes_tpms wf ->
  inputs !! "t1w_tpms" = Some (VList files) ->
  (forall a b, files = [a; b] ->
     in_value wf inputs "gm_tfm" "input_image" = Ok (Some a) /\
     in_value wf inputs "wm_tfm" "input_image" = Ok (Some b) /\
     in_value wf inputs "csf_tfm" "input_image" = Ok (Some b)) /\
  (forall a, files = [a] ->
     in_value wf inputs "gm_tfm" "input_image" = Ok (Some a) /\
     in_value wf inputs "wm_tfm" "input_image" = Err IndexError /\
     in_value wf inputs "csf_tfm" "input_image" = Ok (Some a)) /\
  (files = [] ->
     in_value wf inputs "gm_tfm" "input_image" = Err IndexError /\
     in_value wf inputs "wm_tfm" "input_image" = Err IndexError /\
     in_value wf inputs "csf_tfm" "input_image" = Err IndexError).
Proof.
  intros Hwf Hin.
  destruct (tpms_received wf inputs Hwf) as (-> & -> & ->). rewrite Hin.
  split; [|split]; intros; subst files; repeat split.
Qed.

Lemma tissue_maps_short_collection_witness :
  exists wf, sample_cbfqc_compt_wf = Ok wf /\
    in_value wf (<["t1w_tpms" := VList [VStr "gm.nii"; VStr "wm.nii"]]> ∅)
             "csf_tfm" "input_image" = Ok (Some (VStr "wm.nii")).
Proof.
  eexists. split; [vm_compute; reflexivity|].
  refine (proj2 (proj2 (proj1 (tissue_maps_short_collection _
            (<["t1w_tpms" := VList [VStr "gm.nii"; VStr "wm.nii"]]> ∅)
            [VStr "gm.nii"; VStr "wm.nii"] _ _) _ _ eq_refl))).
  - apply (tpms_cbfqc_compt _ sample_template (VFloat 0.1)
                            (VStr "/data/sub-01/perf/sub-01_asl.nii.gz") sample_metadata
                            (VInt 1) "cbfqc_compt_wf").
    vm_compute. reflexivity.
  - vm_compute. reflexivity.
Defined.




(** ** [pcaslorasl] on missing and unexpected values *)

Lemma existsb_VStr (needle : string) (l : list pyval) :
  existsb (fun x => match x with
                    | VStr t => String.eqb needle t
                    | _ => false
                    end) l = true <-> VStr needle ∈ l.
Proof.
  rewrite existsb_exists. split.
  - intros (x & Hx & Hb). destruct x; try discriminate Hb.
    apply String.eqb_eq in Hb as <-. by apply list_elem_of_In.
  - intros H. exists (VStr needle). split; [by apply list_elem_of_In|].
    apply String.eqb_refl.
Qed.

(** X5: [pcaslorasl] raises KeyError when the metadata has no LabelingType,
    and TypeError when the LabelingType is not a string, list or dict
    ([None], a boolean, a number). *)
Theorem pcaslorasl_errors (metadata : gmap string pyval) :
  (metadata !! "LabelingType" = None ->
   pcaslorasl metadata = Err (KeyError "LabelingType")) /\
  (forall v, metadata !! "LabelingType" = Some v -> is_container v = false ->
   pcaslorasl metadata = Err TypeError).
Proof.
  split.
  - apply pcaslorasl_missing.
  - intros v Hv Hc. unfold pcaslorasl, dict_getitem. rewrite Hv.
    destruct v; try discriminate Hc; reflexivity.
Qed.

(** X6: when the LabelingType is a list, [pcaslorasl] tests membership, not
    containment in an element: the flag is true when the string "CASL" is an
    element, false when "PASL" is an element and "CASL" is not, and
    otherwise the call raises UnboundLocalError, also when an element merely
    contains a marker. *)
Theorem pcaslorasl_list (metadata : gmap string pyval) (l : list pyval) :
  metadata !! "LabelingType" = Some (VList l) ->
  (VStr "CASL" ∈ l -> pcaslorasl metadata = Ok true) /\
  (VStr "CASL" ∉ l -> VStr "PASL" ∈ l -> pcaslorasl metadata = Ok false) /\
  (VStr "CASL" ∉ l -> VStr "PASL" ∉ l ->
   pcaslorasl metadata = Err (UnboundLocalError "pcasl")).
Proof.
  intros H. unfold pcaslorasl, dict_getitem. rewrite H. cbn [mbind result_bind py_in].
  pose proof (existsb_VStr "CASL" l) as Hc. pose proof (existsb_VStr "PASL" l) as Hp.
  destruct (existsb _ l) eqn:Ec in Hc |- *.
  - split; [reflexivity|]. split; intros Hn; destruct Hn; by apply Hc.
  - cbn [mbind result_bind].
    destruct (existsb _ l) eqn:Ep in Hp |- *.
    + split; [intros Hin; apply Hc in Hin; discriminate|].
      split; [reflexivity|]. intros _ Hn. destruct Hn. by apply Hp.
    + split; [intros Hin; apply Hc in Hin; discriminate|].
      split; [intros _ Hin; apply Hp in Hin; discriminate|]. reflexivity.
Qed.

Lemma pcaslorasl_list_witness :
  pcaslorasl (<["LabelingType" := VList [VStr "PCASL"]]> ∅) = Err (UnboundLocalError "pcasl").
Proof.
  refine (proj2 (proj2 (pcaslorasl_list (<["LabelingType" := VList [VStr "PCASL"]]> ∅)
                          [VStr "PCASL"] _)) _ _).
  - vm_compute. reflexivity.
  - intros H. apply list_elem_of_singleton in H. discriminate H.
  - intros H. apply list_elem_of_singleton in H. discriminate H.
Defined.

(** ** What the constructors do with the metadata *)

Lemma dict_getitem_Ok (d : gmap string pyval) (key : string) (v : pyval) :
  dict_getitem d key = Ok v <-> d !! key = Some v.
Proof.
  unfold dict_getitem. destruct (d !! key); split; intros H; try discriminate; congruence.
Qed.

(** X8: when several things are wrong with the metadata, the constructor of
    the CBF-computation workflow reports the first in the order M0,
    PostLabelingDelay, RepetitionTime, LabelingDuration, [np.add],
    LabelingType: a KeyError for the first missing field, the exception of
    [np.add] before the labeling type is looked at, and the exception of
    [pcaslorasl] last. *)
Theorem cbf_compt_first_error (np_add : pyval -> pyval -> result pyval)
    (mem_gb : pyval) (metadata : gmap string pyval)
    (dummy_vols omp_nthreads smooth_kernel : pyval) (name : string) :
  let init :=
    init_cbf_compt_wf np_add mem_gb metadata dummy_vols omp_nthreads smooth_kernel name in
  (metadata !! "M0" = None -> init = Err (KeyError "M0")) /\
  (is_Some (metadata !! "M0") -> metadata !! "PostLabelingDelay" = None ->
   init = Err (KeyError "PostLabelingDelay")) /\
  (is_Some (metadata !! "M0") -> is_Some (metadata !! "PostLabelingDelay") ->
   metadata !! "RepetitionTime" = None -> init = Err (KeyError "RepetitionTime")) /\
  (is_Some (metadata !! "M0") -> is_Some (metadata !! "PostLabelingDelay") ->
   is_Some (metadata !! "RepetitionTime") -> metadata !! "LabelingDuration" = None ->
   init = Err (KeyError "LabelingDuration")) /\
  (forall pld ld e,
     is_Some (metadata !! "M0") -> is_Some (metadata !! "RepetitionTime") ->
     metadata !! "PostLabelingDelay" = Some pld -> metadata !! "LabelingDuration" = Some ld ->
     np_add pld ld = Err e -> init = Err e) /\
  (forall pld ld tis e,
     is_Some (metadata !! "M0") -> is_Some (metadata !! "RepetitionTime") ->
     metadata !! "PostLabelingDelay" = Some pld -> metadata !! "LabelingDuration" = Some ld ->
     np_add pld ld = Ok tis -> pcaslorasl metadata = Err e -> init = Err e).
Proof.
  intros init. subst init. unfold init_cbf_compt_wf, dict_getitem. cbv zeta.
  repeat split.
  - by intros ->.
  - by intros [? ->] ->.
  - by intros [? ->] [? ->] ->.
  - by intros [? ->] [? ->] [? ->] ->.
  - intros pld ld e [? ->] [? ->] -> -> Hadd. cbn [mbind result_bind]. by rewrite Hadd.
  - intros pld ld tis e [? ->] [? ->] -> -> Hadd Hp. cbn [mbind result_bind].
    rewrite Hadd. cbn [mbind result_bind]. by rewrite Hp.
Qed.

(** X10: the plotting constructor needs the metadata field RepetitionTime:
    without it the constructor raises, and in every workflow it returns the
    carpet plot node was built with the value of the field as [tr]. *)
Theorem cbfplot_repetition_time (get_template : string -> kwargs -> string)
    (mem_gb : pyval) (metadata : gmap string pyval) (omp_nthreads : pyval) (name : string) :
  (metadata !! "RepetitionTime" = None ->
   raises (init_cbfplot_wf get_template mem_gb metadata omp_nthreads name)) /\
  (forall wf,
     init_cbfplot_wf get_template mem_gb metadata omp_nthreads name = Ok wf ->
     exists tr,
       metadata !! "RepetitionTime" = Some tr /\
       find_node wf "cbf_ts_summary" =
         Some (pe_Node (CBFtsSummary [("tr", tr)]) "cbf_ts_summary")).
Proof.
  split.
  - intros Htr. unfold raises, init_cbfplot_wf, dict_getitem. cbv zeta. rewrite Htr.
    eexists. reflexivity.
  - intros wf H. from_cbfplot H.
    match goal with
    | E : dict_getitem metadata "RepetitionTime" = Ok ?a |- _ =>
        exists a; split; [by apply dict_getitem_Ok|by_graph H]
    end.
Qed.

Lemma cbfplot_repetition_time_witness :
  exists wf, sample_cbfplot_wf = Ok wf /\
    exists tr,
      sample_metadata !! "RepetitionTime" = Some tr /\
      find_node wf "cbf_ts_summary" =
        Some (pe_Node (CBFtsSummary [("tr", tr)]) "cbf_ts_summary").
Proof.
  eexists. split; [vm_compute; reflexivity|].
  apply (proj2 (cbfplot_repetition_time sample_template (VFloat 0.1) sample_metadata
                  (VInt 1) "cbf_plot")).
  vm_compute. reflexivity.
Defined.

(** X11: the connections of the CBF-computation workflow do not depend on
    the arguments: any two workflows the constructor returns have the same
    nodes by name and the same port-to-port wiring. *)
Theorem cbf_compt_wiring_fixed (np_add np_add' : pyval -> pyval -> result pyval)
    (mem_gb mem_gb' : pyval) (metadata metadata' : gmap string pyval)
    (dummy_vols dummy_vols' omp_nthreads omp_nthreads' smooth_kernel smooth_kernel' : pyval)
    (name name' : string) (wf wf' : Workflow) :
  init_cbf_compt_wf np_add mem_gb metadata dummy_vols omp_nthreads smooth_kernel name = Ok wf ->
  init_cbf_compt_wf np_add' mem_gb' metadata' dummy_vols' omp_nthreads' smooth_kernel' name'
    = Ok wf' ->
  map node_name (wf_nodes wf) = map node_name (wf_nodes wf') /\
  wiring wf = wiring wf'.
Proof.
  intros H H'. from_cbf_compt H. from_cbf_compt H'.
  rewrite <- H, <- H'. split; reflexivity.
Qed.

Lemma cbf_compt_wiring_fixed_witness :
  exists wf wf',
    sample_cbf_compt_wf = Ok wf /\
    init_cbf_compt_wf np_add_scalars (VInt 8)
      (<["LabelingType" := VStr "PASL"]> sample_metadata) (VInt 4) (VInt 2) (VInt 3)
      "other_name" = Ok wf' /\
    map node_name (wf_nodes wf) = map node_name (wf_nodes wf') /\
    wiring wf = wiring wf'.
Proof.
  eexists. eexists. split; [vm_compute; reflexivity|]. split; [vm_compute; reflexivity|].
  apply (cbf_compt_wiring_fixed np_add_scalars np_add_scalars (VFloat 0.1) (VInt 8)
           sample_metadata (<["LabelingType" := VStr "PASL"]> sample_metadata)
           (VInt 0) (VInt 4) (VInt 1) (VInt 2) (VInt 5) (VInt 3) "cbf_compt_wf" "other_name").
  - vm_compute. reflexivity.
  - vm_compute. reflexivity.
Defined.

(** ** What the estimators and the QC node read *)

(** X12: the inputs of the three estimators.  The basic and the Bayesian
    estimator read the same extracted series and the same average from
    [extractcbf]; the grey and white matter projections go to the grey and
    white matter ports of the outlier-robust and of the Bayesian estimator;
    the CSF projection goes to the outlier-robust estimator only. *)
Theorem estimator_inputs (np_add : pyval -> pyval -> result pyval)
    (mem_gb : pyval) (metadata : gmap string pyval)
    (dummy_vols omp_nthreads smooth_kernel : pyval) (name : string) (wf : Workflow) :
  init_cbf_compt_wf np_add mem_gb metadata dummy_vols omp_nthreads smooth_kernel name = Ok wf ->
  List.filter (into_node "computecbf") (wiring wf) =
    [("extractcbf", "out_file", "computecbf", "in_cbf");
     ("extractcbf", "out_avg", "computecbf", "in_m0file");
     ("refinemask", "out_mask", "computecbf", "in_mask")] /\
  List.filter (into_node "scorescrub") (wiring wf) =
    [("refinemask", "out_mask", "scorescrub", "in_mask");
     ("computecbf", "out_cbf", "scorescrub", "in_file");
     ("gm_tfm", "output_image", "scorescrub", "in_greyM");
     ("wm_tfm", "output_image", "scorescrub", "in_whiteM");
     ("csf_tfm", "output_image", "scorescrub", "in_csf")] /\
  List.filter (into_node "basilcbf") (wiring wf) =
    [("refinemask", "out_mask", "basilcbf", "mask");
     ("inputnode", "bold", "basilcbf", "out_basename");
     ("extractcbf", "out_file", "basilcbf", "in_file");
     ("gm_tfm", "output_image", "basilcbf", "pvgm");
     ("wm_tfm", "output_image", "basilcbf", "pvwm");
     ("extractcbf", "out_avg", "basilcbf", "mzero")] /\
  readers wf "csf_tfm" = [("output_image", "scorescrub", "in_csf")].
Proof. intros H. from_cbf_compt H. repeat split; by_graph H. Qed.

Lemma estimator_inputs_witness :
  exists wf, sample_cbf_compt_wf = Ok wf /\
    readers wf "csf_tfm" = [("output_image", "scorescrub", "in_csf")].
Proof.
  eexists. split; [vm_compute; reflexivity|].
  refine (proj2 (proj2 (proj2 (estimator_inputs np_add_scalars (VFloat 0.1) sample_metadata
                                 (VInt 0) (VInt 1) (VInt 5) "cbf_compt_wf" _ _)))).
  vm_compute. reflexivity.
Defined.

(** X13: the inputs of the QC node: the three tissue projections on the port
    of their tissue, the projected anatomical mask, the resampled template
    mask, and the CBF maps, the functional mask and the confounds straight
    from the input node; each of these last ports receives what was set on
    its field, and nothing when the field was left unset. *)
Theorem qc_node_inputs (get_template : string -> kwargs -> string)
    (mem_gb bold_file : pyval) (metadata : gmap string pyval) (omp_nthreads : pyval)
    (name : string) (wf : Workflow) (inputs : gmap string pyval) :
  init_cbfqc_compt_wf get_template mem_gb bold_file metadata omp_nthreads name = Ok wf ->
  List.filter (into_node "qccompute") (wiring wf) =
    [("masktonative", "output_image", "qccompute", "in_t1mask");
     ("inputnode", "bold_mask", "qccompute", "in_boldmask");
     ("inputnode", "confmat", "qccompute", "in_confmat");
     ("inputnode", "bold_mask_std", "qccompute", "in_boldmaskstd");
     ("resample", "out_file", "qccompute", "in_templatemask");
     ("gm_tfm", "output_image", "qccompute", "in_greyM");
     ("wm_tfm", "output_image", "qccompute", "in_whiteM");
     ("csf_tfm", "output_image", "qccompute", "in_csf");
     ("inputnode", "scrub", "qccompute", "in_scrub");
     ("inputnode", "meancbf", "qccompute", "in_meancbf");
     ("inputnode", "avgscore", "qccompute", "in_avgscore");
     ("inputnode", "basil", "qccompute", "in_basil");
     ("inputnode", "pv", "qccompute", "in_pvc")] /\
  (forall port field,
     (port, field) ∈ [("in_scrub", "scrub"); ("in_meancbf", "meancbf");
                      ("in_avgscore", "avgscore"); ("in_basil", "basil"); ("in_pvc", "pv");
                      ("in_boldmask", "bold_mask"); ("in_confmat", "confmat")] ->
     in_value wf inputs "qccompute" port = Ok (inputs !! field)).
Proof.
  intros H. from_cbfqc_compt H. split; [by_graph H|].
  intros port field Hpf. apply list_elem_of_In in Hpf. simpl in Hpf.
  repeat (destruct Hpf as [Hpf|Hpf];
          [injection Hpf as <- <-;
           erewrite (in_value_of_input wf inputs "qccompute" _
                       (mkEdge "inputnode" _ None "qccompute" _)); [reflexivity|by_graph H..]|]).
  contradiction.
Qed.

Lemma qc_node_inputs_witness :
  exists wf, sample_cbfqc_compt_wf = Ok wf /\
    forall port field,
     (port, field) ∈ [("in_scrub", "scrub"); ("in_meancbf", "meancbf");
                      ("in_avgscore", "avgscore"); ("in_basil", "basil"); ("in_pvc", "pv");
                      ("in_boldmask", "bold_mask"); ("in_confmat", "confmat")] ->
     in_value wf sample_inputs "qccompute" port = Ok (sample_inputs !! field).
Proof.
  eexists. split; [vm_compute; reflexivity|].
  refine (proj2 (qc_node_inputs sample_template (VFloat 0.1)
                   (VStr "/data/sub-01/perf/sub-01_asl.nii.gz") sample_metadata (VInt 1)
                   "cbfqc_compt_wf" _ sample_inputs _)).
  vm_compute. reflexivity.
Defined.

(** X14: in both workflows that take the tissue maps, each of the three
    tissue projections resamples onto the functional mask with the
    anatomical-to-functional transform, both handed through unchanged from
    the input node, and with nearest-neighbour interpolation. *)
Theorem tissue_projection_geometry (wf : Workflow) (inputs : gmap string pyval)
    (n : string) :
  takes_tpms wf ->
  n ∈ ["csf_tfm"; "wm_tfm"; "gm_tfm"] ->
  in_value wf inputs n "reference_image" = Ok (inputs !! "bold_mask") /\
  in_value wf inputs n "transforms" = Ok (inputs !! "t1_bold_xform") /\
  exists nd, find_node wf n = Some nd /\ is_ApplyTransforms nd = true /\
             node_kwarg nd "interpolation" = Some (VStr "NearestNeighbor").
Proof.
  intros Hwf Hn. apply list_elem_of_In in Hn. simpl in Hn.
  destruct Hwf as [? ? ? ? ? ? ? H|? ? ? ? ? ? H];
    [from_cbf_compt H|from_cbfqc_compt H];
    destruct Hn as [<-|[<-|[<-|[]]]];
    (split; [|split]);
    try (erewrite (in_value_of_input wf inputs _ _
                     (mkEdge "inputnode" _ None _ _)); [reflexivity|by_graph H..]);
    (eexists; split; [by_graph H|split; reflexivity]).
Qed.

Lemma tissue_projection_geometry_witness :
  exists wf, sample_cbf_compt_wf = Ok wf /\
    in_value wf sample_inputs "gm_tfm" "transforms" = Ok (Some (VStr "from-T1w_to-scanner_xfm.txt")).
Proof.
  eexists. split; [vm_compute; reflexivity|].
  refine (proj1 (proj2 (tissue_projection_geometry _ sample_inputs "gm_tfm" _ _))).
  - apply (tpms_cbf_compt _ np_add_scalars (VFloat 0.1) sample_metadata (VInt 0) (VInt 1)
                          (VInt 5) "cbf_compt_wf").
    vm_compute. reflexivity.
  - do 2 apply list_elem_of_further. apply list_elem_of_here.
Defined.

(** ** Declared fields and the ends of each graph *)

(** X15: in the CBF-computation workflow every declared output field has a
    writer; of the declared inputs, [itk_bold_to_t1] is read by no node; the
    input node is the only node without a writer and the output node the
    only one without a reader. *)
Theorem cbf_compt_interface (np_add : pyval -> pyval -> result pyval)
    (mem_gb : pyval) (metadata : gmap string pyval)
    (dummy_vols omp_nthreads smooth_kernel : pyval) (name : string) (wf : Workflow) :
  init_cbf_compt_wf np_add mem_gb metadata dummy_vols omp_nthreads smooth_kernel name = Ok wf ->
  unwritten_fields wf "outputnode" = [] /\
  unread_fields wf "inputnode" = ["itk_bold_to_t1"] /\
  without_writer wf = ["inputnode"] /\
  without_reader wf = ["outputnode"].
Proof. intros H. from_cbf_compt H. repeat split; by_graph H. Qed.

Lemma cbf_compt_interface_witness :
  exists wf, sample_cbf_compt_wf = Ok wf /\ unread_fields wf "inputnode" = ["itk_bold_to_t1"].
Proof.
  eexists. split; [vm_compute; reflexivity|].
  refine (proj1 (proj2 (cbf_compt_interface np_add_scalars (VFloat 0.1) sample_metadata
                          (VInt 0) (VInt 1) (VInt 5) "cbf_compt_wf" _ _))).
  vm_compute. reflexivity.
Defined.

(** X16: in the QC workflow every declared input field is read and the one
    declared output field is written; the input node is the only node
    without a writer and the output node the only one without a reader. *)
Theorem cbfqc_interface (get_template : string -> kwargs -> string)
    (mem_gb bold_file : pyval) (metadata : gmap string pyval) (omp_nthreads : pyval)
    (name : string) (wf : Workflow) :
  init_cbfqc_compt_wf get_template mem_gb bold_file metadata omp_nthreads name = Ok wf ->
  unwritten_fields wf "outputnode" = [] /\
  unread_fields wf "inputnode" = [] /\
  without_writer wf = ["inputnode"] /\
  without_reader wf = ["outputnode"].
Proof. intros H. from_cbfqc_compt H. repeat split; by_graph H. Qed.

Lemma cbfqc_interface_witness :
  exists wf, sample_cbfqc_compt_wf = Ok wf /\ unread_fields wf "inputnode" = [].
Proof.
  eexists. split; [vm_compute; reflexivity|].
  refine (proj1 (proj2 (cbfqc_interface sample_template (VFloat 0.1)
                          (VStr "/data/sub-01/perf/sub-01_asl.nii.gz") sample_metadata
                          (VInt 1) "cbfqc_compt_wf" _ _))).
  vm_compute. reflexivity.
Defined.

(** X17: in the plotting workflow the declared output [score_carpetplot] has
    no writer and the declared input [score_ts] no reader; every other
    declared field is connected; besides the output node, the six report
    sinks are the nodes without a reader. *)
Theorem cbfplot_interface (get_template : string -> kwargs -> string)
    (mem_gb : pyval) (metadata : gmap string pyval) (omp_nthreads : pyval) (name : string)
    (wf : Workflow) :
  init_cbfplot_wf get_template mem_gb metadata omp_nthreads name = Ok wf ->
  unwritten_fields wf "outputnode" = ["score_carpetplot"] /\
  unread_fields wf "inputnode" = ["score_ts"] /\
  without_writer wf = ["inputnode"] /\
  without_reader wf =
    ["ds_report_cbftsplot"; "outputnode"; "ds_report_cbfplot"; "ds_report_scoreplot";
     "ds_report_scrubplot"; "ds_report_basilplot"; "ds_report_pvcplot"].
Proof. intros H. from_cbfplot H. repeat split; by_graph H. Qed.

Lemma cbfplot_interface_witness :
  exists wf, sample_cbfplot_wf = Ok wf /\ unwritten_fields wf "outputnode" = ["score_carpetplot"].
Proof.
  eexists. split; [vm_compute; reflexivity|].
  refine (proj1 (cbfplot_interface sample_template (VFloat 0.1) sample_metadata (VInt 1)
                   "cbf_plot" _ _)).
  vm_compute. reflexivity.
Defined.

(** X18: in the ROI-quantification workflow every declared input field is
    read and each of the 25 declared output fields is written; the input
    node is the only node without a writer and the output node the only one
    without a reader. *)
Theorem cbfroiquant_interface (get_atlas : string -> pyval * pyval * pyval)
    (mem_gb omp_nthreads : pyval) (name : string) (wf : Workflow) :
  init_cbfroiquant_wf get_atlas mem_gb omp_nthreads name = Ok wf ->
  length (node_fields wf "outputnode") = 25%nat /\
  unwritten_fields wf "outputnode" = [] /\
  unread_fields wf "inputnode" = [] /\
  without_writer wf = ["inputnode"] /\
  without_reader wf = ["outputnode"].
Proof. intros H. from_cbfroiquant get_atlas H. repeat split; by_graph H. Qed.

Lemma cbfroiquant_interface_witness :
  exists wf, sample_cbfroiquant_wf = Ok wf /\ unwritten_fields wf "outputnode" = [].
Proof.
  eexists. split; [vm_compute; reflexivity|].
  refine (proj1 (proj2 (cbfroiquant_interface sample_atlas (VFloat 0.1) (VInt 1)
                          "cbf_roiquant" _ _))).
  vm_compute. reflexivity.
Defined.

(** ** Labels that have to agree *)

(** X19: in the plotting workflow the five summary nodes are wired by their
    label: the node labelled L reads the field L of the input node and the
    reference volume [bold_ref], and its plot goes to the report sink whose
    description is L followed by "plot" and to the output field L followed
    by "_summary_plot". *)
Theorem cbfplot_labels_agree (get_template : string -> kwargs -> string)
    (mem_gb : pyval) (metadata : gmap string pyval) (omp_nthreads : pyval) (name : string)
    (wf : Workflow) (L : string) :
  init_cbfplot_wf get_template mem_gb metadata omp_nthreads name = Ok wf ->
  L ∈ ["cbf"; "score"; "scrub"; "basil"; "pvc"] ->
  find_node wf (L +:+ "_summary") =
    Some (pe_Node (CBFSummary [("label", VStr L)]) (L +:+ "_summary")) /\
  producer wf (L +:+ "_summary") "cbf" = Some ("inputnode", L) /\
  producer wf (L +:+ "_summary") "ref_vol" = Some ("inputnode", "bold_ref") /\
  readers wf (L +:+ "_summary") =
    [("out_file", "ds_report_" +:+ L +:+ "plot", "in_file");
     ("out_file", "outputnode", L +:+ "_summary_plot")] /\
  exists sink, find_node wf ("ds_report_" +:+ L +:+ "plot") = Some sink /\
               node_kwarg sink "desc" = Some (VStr (L +:+ "plot")).
Proof.
  intros H HL. from_cbfplot H. apply list_elem_of_In in HL. simpl in HL.
  destruct HL as [<-|[<-|[<-|[<-|[<-|[]]]]]];
    (split; [by_graph H|]); (split; [by_graph H|]); (split; [by_graph H|]);
    (split; [by_graph H|]); (eexists; split; [by_graph H|reflexivity]).
Qed.

Lemma cbfplot_labels_agree_witness :
  exists wf, sample_cbfplot_wf = Ok wf /\
    producer wf "scrub_summary" "cbf" = Some ("inputnode", "scrub").
Proof.
  eexists. split; [vm_compute; reflexivity|].
  refine (proj1 (proj2 (cbfplot_labels_agree sample_template (VFloat 0.1) sample_metadata
                          (VInt 1) "cbf_plot" _ "scrub" _ _))).
  - vm_compute. reflexivity.
  - do 2 apply list_elem_of_further. apply list_elem_of_here.
Defined.

(** X20: in the ROI-quantification workflow every region-reduction node is
    given the region data and the label list of the very atlas whose
    resampled image it reads: the node, and the resampling node that feeds
    its [atlasfile], take their three files from one call of the atlas
    lookup. *)
Theorem cbfroiquant_atlas_agrees (get_atlas : string -> pyval * pyval * pyval)
    (mem_gb omp_nthreads : pyval) (name : string) (wf : Workflow) (n : Node) :
  init_cbfroiquant_wf get_atlas mem_gb omp_nthreads name = Ok wf ->
  n ∈ wf_nodes wf ->
  is_cbfqroiquant n = true ->
  exists atlasname t,
    atlasname ∈ ["HarvardOxford"; "schaefer200x7"; "schaefer200x17"; "schaefer400x7";
                 "schaefer400x17"] /\
    producer wf (node_name n) "atlasfile" = Some (node_name t, "output_image") /\
    find_node wf (node_name t) = Some t /\
    is_ApplyTransforms t = true /\
    node_kwarg t "input_image" = Some (get_atlas atlasname).1.1 /\
    node_kwarg n "atlasdata" = Some (get_atlas atlasname).1.2 /\
    node_kwarg n "atlaslabel" = Some (get_atlas atlasname).2.
Proof.
  intros H Hn Hq.
  from_cbfroiquant get_atlas H. rewrite <- H in Hn. cbn [wf_nodes] in Hn.
  apply list_elem_of_In in Hn. simpl in Hn.
  repeat (destruct Hn as [<-|Hn]; [try discriminate Hq|]); [..|contradiction];
    first
      [ exists "HarvardOxford",
          (pe_Node (ApplyTransforms [("float", VBool true); ("input_image", hvoxfile);
                                     ("dimension", VInt 3); ("default_value", VInt 0);
                                     ("interpolation", VStr "NearestNeighbor")]) "hvoftrans");
        rewrite Ehvox;
        split; [apply list_elem_of_here|]; repeat split; by_graph H
      | exists "schaefer200x7",
          (pe_Node (ApplyTransforms [("float", VBool true); ("input_image", sc207file);
                                     ("dimension", VInt 3); ("default_value", VInt 0);
                                     ("interpolation", VStr "NearestNeighbor")]) "sc207trans");
        rewrite Esc207;
        split; [apply list_elem_of_further, list_elem_of_here|]; repeat split; by_graph H
      | exists "schaefer200x17",
          (pe_Node (ApplyTransforms [("float", VBool true); ("input_image", sc217file);
                                     ("dimension", VInt 3); ("default_value", VInt 0);
                                     ("interpolation", VStr "NearestNeighbor")]) "sc217trans");
        rewrite Esc217;
        split; [do 2 apply list_elem_of_further; apply list_elem_of_here|];
        repeat split; by_graph H
      | exists "schaefer400x7",
          (pe_Node (ApplyTransforms [("float", VBool true); ("input_image", sc407file);
                                     ("dimension", VInt 3); ("default_value", VInt 0);
                                     ("interpolation", VStr "NearestNeighbor")]) "sc407trans");
        rewrite Esc407;
        split; [do 3 apply list_elem_of_further; apply list_elem_of_here|];
        repeat split; by_graph H
      | exists "schaefer400x17",
          (pe_Node (ApplyTransforms [("float", VBool true); ("input_image", sc417file);
                                     ("dimension", VInt 3); ("default_value", VInt 0);
                                     ("interpolation", VStr "NearestNeighbor")]) "sc417trans");
        rewrite Esc417;
        split; [do 4 apply list_elem_of_further; apply list_elem_of_here|];
        repeat split; by_graph H ].
Qed.

Lemma cbfroiquant_atlas_agrees_witness :
  exists wf n, sample_cbfroiquant_wf = Ok wf /\ find_node wf "scrub217" = Some n /\
  exists atlasname t,
    atlasname ∈ ["HarvardOxford"; "schaefer200x7"; "schaefer200x17"; "schaefer400x7";
                 "schaefer400x17"] /\
    producer wf (node_name n) "atlasfile" = Some (node_name t, "output_image") /\
    find_node wf (node_name t) = Some t /\
    is_ApplyTransforms t = true /\
    node_kwarg t "input_image" = Some (sample_atlas atlasname).1.1 /\
    node_kwarg n "atlasdata" = Some (sample_atlas atlasname).1.2 /\
    node_kwarg n "atlaslabel" = Some (sample_atlas atlasname).2.
Proof.
  eexists. eexists. split; [vm_compute; reflexivity|]. split; [vm_compute; reflexivity|].
  apply (cbfroiquant_atlas_agrees sample_atlas (VFloat 0.1) (VInt 1) "cbf_roiquant").
  - vm_compute. reflexivity.
  - apply list_elem_of_In. cbn [wf_nodes]. simpl. tauto.
  - reflexivity.
Defined.

(** ** The output directory of BASIL *)

Lemma drop_while_app_all {A} (p : A -> bool) (l l' : list A) :
  forallb p l = true -> drop_while p (l ++ l') = drop_while p l'.
Proof.
  induction l as [|x l IH]; [reflexivity|]. cbn [forallb app drop_while].
  intros H. apply andb_true_iff in H as [Hx Hl]. rewrite Hx. by apply IH.
Qed.

Lemma forallb_not_slash (l : list ascii) :
  slash ∉ l -> forallb (fun c => negb (bool_decide (c = slash))) l = true.
Proof.
  intros H. apply forallb_forall. intros c Hc. apply list_elem_of_In in Hc.
  rewrite bool_decide_eq_false_2; [reflexivity|]. by intros ->.
Qed.

Lemma forallb_rev {A} (p : A -> bool) (l : list A) :
  forallb p (rev l) = forallb p l.
Proof.
  induction l as [|x l IH]; [reflexivity|]. cbn [rev forallb].
  rewrite forallb_app, IH. cbn [forallb]. rewrite andb_true_r. apply andb_comm.
Qed.

Lemma dirname_no_slash (base : string) :
  slash ∉ String.list_ascii_of_string base -> dirname base = EmptyString.
Proof.
  intros H. unfold dirname.
  pose proof (drop_while_app_all (fun c => negb (bool_decide (c = slash)))
                (rev (String.list_ascii_of_string base)) []) as Hd.
  rewrite app_nil_r in Hd. rewrite Hd; [reflexivity|].
  rewrite forallb_rev. by apply forallb_not_slash.
Qed.

Lemma dirname_join (dir0 : string) (c : ascii) (base : string) :
  c <> slash ->
  slash ∉ String.list_ascii_of_string base ->
  dirname ((dir0 +:+ String c EmptyString) +:+ String slash base) =
    dir0 +:+ String c EmptyString.
Proof.
  intros Hc Hb. unfold dirname.
  rewrite !list_ascii_app. cbn [String.list_ascii_of_string].
  rewrite !rev_app_distr. cbn [rev app].
  rewrite <- app_assoc. cbn [app].
  rewrite drop_while_app_all by (rewrite forallb_rev; by apply forallb_not_slash).
  cbn [drop_while]. rewrite bool_decide_eq_true_2 by reflexivity. cbn [negb forallb].
  rewrite bool_decide_eq_true_2 by reflexivity.
  rewrite (bool_decide_eq_false_2 (c = slash)) by assumption. cbn [andb drop_while].
  rewrite bool_decide_eq_true_2 by reflexivity.
  rewrite (bool_decide_eq_false_2 (c = slash)) by assumption.
  cbn [rev]. rewrite rev_involutive.
  rewrite <- (String.string_of_list_ascii_of_string (dir0 +:+ String c EmptyString)).
  by rewrite list_ascii_app.
Qed.

(** X21: the Bayesian estimator writes next to the series: its
    [out_basename] port receives the directory of the path set on [bold],
    that is the path up to its last slash; for a bare file name it receives
    the empty string, and for a value that is not a string the function on
    the connection raises TypeError. *)
Theorem basil_out_basename (np_add : pyval -> pyval -> result pyval)
    (mem_gb : pyval) (metadata : gmap string pyval)
    (dummy_vols omp_nthreads smooth_kernel : pyval) (name : string) (wf : Workflow)
    (inputs : gmap string pyval) :
  init_cbf_compt_wf np_add mem_gb metadata dummy_vols omp_nthreads smooth_kernel name = Ok wf ->
  (forall dir0 c base,
     c <> slash -> slash ∉ String.list_ascii_of_string base ->
     inputs !! "bold" = Some (VStr ((dir0 +:+ String c EmptyString) +:+ String slash base)) ->
     in_value wf inputs "basilcbf" "out_basename" =
       Ok (Some (VStr (dir0 +:+ String c EmptyString)))) /\
  (forall base,
     slash ∉ String.list_ascii_of_string base ->
     inputs !! "bold" = Some (VStr base) ->
     in_value wf inputs "basilcbf" "out_basename" = Ok (Some (VStr EmptyString))) /\
  (forall v,
     inputs !! "bold" = Some v -> (forall p, v <> VStr p) ->
     in_value wf inputs "basilcbf" "out_basename" = Err TypeError) /\
  in_value wf inputs "extractcbf" "in_file" = Ok (inputs !! "bold").
Proof.
  intros H. from_cbf_compt H.
  assert (in_value wf inputs "basilcbf" "out_basename" =
          apply_fn (Some CbfCompt._getfiledir) (inputs !! "bold")) as ->.
  { by erewrite (in_value_of_input wf inputs "basilcbf" "out_basename"
                   (mkEdge "inputnode" "bold" (Some CbfCompt._getfiledir)
                           "basilcbf" "out_basename")); [|by_graph H..]. }
  split; [|split; [|split]].
  - intros dir0 c base Hc Hb ->. cbn [apply_fn CbfCompt._getfiledir mbind result_bind].
    by rewrite dirname_join.
  - intros base Hb ->. cbn [apply_fn CbfCompt._getfiledir mbind result_bind].
    by rewrite dirname_no_slash.
  - intros v -> Hv. destruct v; try reflexivity. by destruct (Hv s).
  - by erewrite (in_value_of_input wf inputs "extractcbf" "in_file"
                   (mkEdge "inputnode" "bold" None "extractcbf" "in_file")); [|by_graph H..].
Qed.

Lemma basil_out_basename_witness :
  exists wf, sample_cbf_compt_wf = Ok wf /\
    in_value wf (<["bold" := VStr "/data/sub-01/perf/sub-01_asl.nii.gz"]> ∅)
             "basilcbf" "out_basename" = Ok (Some (VStr "/data/sub-01/perf")).
Proof.
  eexists. split; [vm_compute; reflexivity|].
  refine (proj1 (basil_out_basename np_add_scalars (VFloat 0.1) sample_metadata
                   (VInt 0) (VInt 1) (VInt 5) "cbf_compt_wf" _
                   (<["bold" := VStr "/data/sub-01/perf/sub-01_asl.nii.gz"]> ∅) _)
                "/data/sub-01/per" "f"%char "sub-01_asl.nii.gz" _ _ _).
  - vm_compute. reflexivity.
  - discriminate.
  - intros Hin. apply list_elem_of_In in Hin. vm_compute in Hin. 
    repeat (destruct Hin as [Hin|Hin]; [discriminate Hin|]). exact Hin.
  - vm_compute. reflexivity.
Defined.

(** ** Resampling of label images *)

(** X22: every [ApplyTransforms] node of the plotting and of the
    ROI-quantification workflow resamples a label image without blending
    labels, with default value 0 and dimension 3, onto the functional mask
    handed through unchanged from the input node: in the plotting workflow
    the interpolation is multi-label and the mask is the field [bold_mask],
    in the ROI-quantification workflow the interpolation is nearest-neighbour
    and the mask is the field [boldmask]. *)
Theorem template_projection_keeps_labels (inputs : gmap string pyval) (n : Node) :
  (forall (get_template : string -> kwargs -> string) (mem_gb : pyval)
          (metadata : gmap string pyval) (omp_nthreads : pyval) (name : string)
          (wf : Workflow),
     init_cbfplot_wf get_template mem_gb metadata omp_nthreads name = Ok wf ->
     n ∈ wf_nodes wf -> is_ApplyTransforms n = true ->
     node_kwarg n "interpolation" = Some (VStr "MultiLabel") /\
     node_kwarg n "default_value" = Some (VInt 0) /\
     node_kwarg n "dimension" = Some (VInt 3) /\
     in_value wf inputs (node_name n) "reference_image" = Ok (inputs !! "bold_mask")) /\
  (forall (get_atlas : string -> pyval * pyval * pyval) (mem_gb omp_nthreads : pyval)
          (name : string) (wf : Workflow),
     init_cbfroiquant_wf get_atlas mem_gb omp_nthreads name = Ok wf ->
     n ∈ wf_nodes wf -> is_ApplyTransforms n = true ->
     node_kwarg n "interpolation" = Some (VStr "NearestNeighbor") /\
     node_kwarg n "default_value" = Some (VInt 0) /\
     node_kwarg n "dimension" = Some (VInt 3) /\
     in_value wf inputs (node_name n) "reference_image" = Ok (inputs !! "boldmask")).
Proof.
  split.
  - intros ? ? ? ? ? wf H Hn Happ.
    from_cbfplot H. rewrite <- H in Hn. cbn [wf_nodes] in Hn.
    apply list_elem_of_In in Hn. simpl in Hn.
    repeat (destruct Hn as [<-|Hn]; [try discriminate Happ|]); [|contradiction].
    split; [reflexivity|]. split; [reflexivity|]. split; [reflexivity|].
    cbn [node_name].
    by erewrite (in_value_of_input wf inputs _ "reference_image"
                   (mkEdge "inputnode" "bold_mask" None _ "reference_image"));
      [|by_graph H..].
  - intros get_atlas ? ? ? wf H Hn Happ.
    from_cbfroiquant get_atlas H. rewrite <- H in Hn. cbn [wf_nodes] in Hn.
    apply list_elem_of_In in Hn. simpl in Hn.
    repeat (destruct Hn as [<-|Hn]; [try discriminate Happ|]); [..|contradiction];
      (split; [reflexivity|]); (split; [reflexivity|]); (split; [reflexivity|]);
      cbn [node_name];
      by erewrite (in_value_of_input wf inputs _ "reference_image"
                     (mkEdge "inputnode" "boldmask" None _ "reference_image"));
        [|by_graph H..].
Qed.

Lemma template_projection_keeps_labels_witness :
  (exists wf n, sample_cbfplot_wf = Ok wf /\ find_node wf "resample_parc" = Some n /\
     node_kwarg n "interpolation" = Some (VStr "MultiLabel") /\
     node_kwarg n "default_value" = Some (VInt 0) /\
     node_kwarg n "dimension" = Some (VInt 3) /\
     in_value wf (<["bold_mask" := VStr "desc-brain_mask.nii.gz"]>
                    (<["boldmask" := VStr "other_mask.nii.gz"]> ∅))
              (node_name n) "reference_image" = Ok (Some (VStr "desc-brain_mask.nii.gz"))) /\
  (exists wf n, sample_cbfroiquant_wf = Ok wf /\ find_node wf "sc217trans" = Some n /\
     node_kwarg n "interpolation" = Some (VStr "NearestNeighbor") /\
     node_kwarg n "default_value" = Some (VInt 0) /\
     node_kwarg n "dimension" = Some (VInt 3) /\
     in_value wf (<["bold_mask" := VStr "desc-brain_mask.nii.gz"]>
                    (<["boldmask" := VStr "other_mask.nii.gz"]> ∅))
              (node_name n) "reference_image" = Ok (Some (VStr "other_mask.nii.gz"))).
Proof.
  split.
  - eexists. eexists. split; [vm_compute; reflexivity|]. split; [vm_compute; reflexivity|].
    refine (proj1 (template_projection_keeps_labels _ _) sample_template (VFloat 0.1)
              sample_metadata (VInt 1) "cbf_plot" _ _ _ _).
    + vm_compute. reflexivity.
    + apply list_elem_of_In. cbn [wf_nodes]. simpl. tauto.
    + reflexivity.
  - eexists. eexists. split; [vm_compute; reflexivity|]. split; [vm_compute; reflexivity|].
    refine (proj2 (template_projection_keeps_labels _ _) sample_atlas (VFloat 0.1) (VInt 1)
              "cbf_roiquant" _ _ _ _).
    + vm_compute. reflexivity.
    + apply list_elem_of_In. cbn [wf_nodes]. simpl. tauto.
    + reflexivity.
Defined.
